(** * Science Community Chat

    The engine factory, document loader, index build and chat loop of
    [sc_app/app.py] (OpenAI) and [sc_bedrock_app/app.py] (AWS Bedrock).

    Both programs are Streamlit front ends over LlamaIndex.  A library
    object they create (memory buffer, completion provider, chat engine,
    vector index) is represented by the call that creates it: a record of
    the arguments the application passes.  What the library does with those
    arguments afterwards is not part of either file. *)

From Stdlib Require Import ZArith Strings.Ascii Strings.String Floats.PrimFloat.
From stdpp Require Import base option strings gmap list sorting pretty.

#[local] Set Warnings "-inexact-float".
Local Open Scope string_scope.
Local Open Scope list_scope.

(** ** Python values and results *)

(** Values of a [Dict[str, Any]] configuration. *)
Inductive pyval : Type :=
| PyNone
| PyBool (b : bool)
| PyInt (z : Z)
| PyFloat (f : float)
| PyStr (s : string).

Definition float_of (v : pyval) : option float :=
  match v with PyFloat f => Some f | _ => None end.

(** Outcome of a call that may raise; an exception is kept as [str(e)]. *)
Inductive result (A : Type) : Type :=
| Returns (a : A)
| Raises (e : string).
Arguments Returns {A} a.
Arguments Raises {A} e.

(** [config.get(key, default)]: the default is used only for an absent key. *)
Definition dict_get (config : gmap string pyval) (key : string) (dflt : pyval) : pyval :=
  default dflt (config !! key).

(** [os.path.join(a, b)] on POSIX, for a relative [b]. *)
Definition ends_with_slash (a : string) : bool :=
  match String.get (String.length a - 1) a with
  | Some c => Ascii.eqb c "/"%char
  | None => false
  end.

Definition os_path_join (a b : string) : string :=
  if String.eqb a "" then b
  else if ends_with_slash a then a +:+ b
  else a +:+ "/" +:+ b.

(** ** LlamaIndex objects, as the calls that build them *)

Record Document : Type := mkDocument { doc_path : string; doc_text : string }.

Inductive LLM : Type :=
| OpenAI (model : string) (temperature : pyval)
| BedrockConverse (model : string) (temperature : pyval) (max_tokens : Z).

Definition llm_temperature (l : LLM) : pyval :=
  match l with
  | OpenAI _ t => t
  | BedrockConverse _ t _ => t
  end.

Inductive Embedding : Type :=
| OpenAIEmbedding
| BedrockEmbedding (model_name : string).

(** The process-wide [Settings] object of LlamaIndex. *)
Record Settings : Type := mkSettings {
  Settings_llm : option LLM;
  Settings_embed_model : option Embedding
}.

(** [VectorStoreIndex.from_documents(documents)]; the library reads the
    global [Settings] in force at the time of the call. *)
Record VectorStoreIndex : Type := from_documents {
  index_documents : list Document;
  index_settings : Settings
}.

(** [ChatMemoryBuffer.from_defaults(token_limit=...)]: the buffer the
    library builds for a positive integer limit.  What the library makes of
    any other argument is its own validation and is in neither file; the
    statements below that speak of a buffer's limit are about positive
    integers. *)
Record ChatMemoryBuffer : Type := from_defaults { token_limit : pyval }.

(** Arguments of [index.as_chat_engine(...)]; [None] is an argument the
    call does not pass. *)
Record chat_engine_args : Type := mkArgs {
  chat_mode : option string;
  memory : option ChatMemoryBuffer;
  llm : option LLM;
  system_prompt : option pyval;
  context_prompt : option pyval;
  verbose : option bool
}.

Record ChatEngine : Type := as_chat_engine {
  engine_index : VectorStoreIndex;
  engine_args : chat_engine_args
}.

(** [index.as_chat_engine()] with no argument at all. *)
Definition no_args : chat_engine_args :=
  mkArgs None None None None None None.

Definition DEFAULT_PROMPT : string :=
  "You are familiar with biographies of Albert and Marie, as well as their professional and social friendships and relationships.".

(** ** The world outside the program *)

Record World : Type := mkWorld {
  (** [os.path.dirname(__file__)] *)
  dirname : string;
  (** [os.path.exists(path)] *)
  path_exists : string -> bool;
  (** [SimpleDirectoryReader(path).load_data()] *)
  load_data : string -> result (list Document);
  (** [str(chat_engine.chat(prompt))] *)
  chat : ChatEngine -> string -> result string
}.

(** ** Streamlit state *)

(** An entry of [st.session_state.messages]. *)
Record message : Type := mkMessage { role : string; content : string }.

(** What a script run renders, of the calls that matter here. *)
Inductive element : Type :=
| st_error (body : string)
| st_chat_message (role : string) (body : string).

(** Arguments of a memoized call, as [st.cache_resource] keys them. *)
Inductive arg : Type :=
| ArgStr (s : string)
| ArgVal (v : pyval)
| ArgDocs (d : option (list Document)).

Record app_state : Type := mkState {
  (** [st.session_state.messages] *)
  messages : list message;
  (** the global [Settings] *)
  settings : Settings;
  (** elements rendered so far, oldest first *)
  screen : list element;
  (** what [st.cache_resource] holds for [load_documents] *)
  load_documents_cache : list (list arg * option (list Document));
  (** what [st.cache_resource] holds for [create_index] *)
  create_index_cache : list (list arg * option VectorStoreIndex)
}.

Definition initial_state : app_state :=
  mkState [] (mkSettings None None) [] [] [].

(** *** A state monad over [app_state] *)

Definition App (A : Type) : Type := app_state -> A * app_state.

#[export] Instance App_ret : MRet App := fun A a s => (a, s).
#[export] Instance App_bind : MBind App :=
  fun A B f m s => let '(a, s') := m s in f a s'.

Definition run {A} (m : App A) (s : app_state) : A * app_state := m s.
Definition exec {A} (m : App A) (s : app_state) : app_state := snd (m s).
Definition eval {A} (m : App A) (s : app_state) : A := fst (m s).

Definition get_state : App app_state := fun s => (s, s).

Definition render (e : element) : App unit := fun s =>
  (tt, mkState (messages s) (settings s) (screen s ++ [e])
         (load_documents_cache s) (create_index_cache s)).

Definition messages_append (m : message) : App unit := fun s =>
  (tt, mkState (messages s ++ [m]) (settings s) (screen s)
         (load_documents_cache s) (create_index_cache s)).

Definition messages_clear : App unit := fun s =>
  (tt, mkState [] (settings s) (screen s)
         (load_documents_cache s) (create_index_cache s)).

Definition set_Settings_llm (l : LLM) : App unit := fun s =>
  (tt, mkState (messages s)
         (mkSettings (Some l) (Settings_embed_model (settings s)))
         (screen s) (load_documents_cache s) (create_index_cache s)).

Definition set_Settings_embed_model (e : Embedding) : App unit := fun s =>
  (tt, mkState (messages s)
         (mkSettings (Settings_llm (settings s)) (Some e))
         (screen s) (load_documents_cache s) (create_index_cache s)).

Definition set_load_documents_cache
    (c : list (list arg * option (list Document))) : App unit := fun s =>
  (tt, mkState (messages s) (settings s) (screen s) c (create_index_cache s)).

Definition set_create_index_cache
    (c : list (list arg * option VectorStoreIndex)) : App unit := fun s =>
  (tt, mkState (messages s) (settings s) (screen s) (load_documents_cache s) c).

(** *** [st.cache_resource] *)

Definition pyval_eqb (a b : pyval) : bool :=
  match a, b with
  | PyNone, PyNone => true
  | PyBool x, PyBool y => Bool.eqb x y
  | PyInt x, PyInt y => Z.eqb x y
  | PyFloat x, PyFloat y => PrimFloat.eqb x y
  | PyStr x, PyStr y => String.eqb x y
  | _, _ => false
  end.

Definition Document_eqb (a b : Document) : bool :=
  String.eqb (doc_path a) (doc_path b) && String.eqb (doc_text a) (doc_text b).

(** Element-wise comparison of two argument lists of the same length. *)
Fixpoint list_eqb {A} (same : A -> A -> bool) (xs ys : list A) : bool :=
  match xs with
  | [] => match ys with [] => true | _ :: _ => false end
  | x :: xs' =>
      match ys with
      | [] => false
      | y :: ys' => same x y && list_eqb same xs' ys'
      end
  end.

Definition arg_eqb (a b : arg) : bool :=
  match a, b with
  | ArgStr x, ArgStr y => String.eqb x y
  | ArgVal x, ArgVal y => pyval_eqb x y
  | ArgDocs None, ArgDocs None => true
  | ArgDocs (Some x), ArgDocs (Some y) => list_eqb Document_eqb x y
  | _, _ => false
  end.

Fixpoint cache_lookup {V} (key : list arg) (c : list (list arg * V)) : option V :=
  match c with
  | [] => None
  | (k, v) :: c => if list_eqb arg_eqb k key then Some v else cache_lookup key c
  end.

(** The decorator: a call whose arguments were seen before returns the
    stored value and does not run the body; otherwise the body runs and its
    return value is stored.  (The replay of elements a stored call had
    rendered is left out: [screen] is unchanged on a hit, so what a hit
    renders is outside this model.) *)
Definition cache_resource {V}
    (cache : app_state -> list (list arg * V))
    (set_cache : list (list arg * V) -> App unit)
    (key : list arg) (body : App V) : App V :=
  s ← get_state;
  match cache_lookup key (cache s) with
  | Some v => mret v
  | None =>
      v ← body;
      s' ← get_state;
      set_cache ((key, v) :: cache s');;
      mret v
  end.

(** Python truthiness of [documents] (None and the empty list are false). *)
Definition truthy_documents (documents : option (list Document)) : bool :=
  match documents with
  | Some (_ :: _) => true
  | _ => false
  end.

(** The values the sidebar widgets return in one script run. *)
Record sidebar : Type := mkSidebar {
  sel_engine_type : string;
  slider_temperature : float;
  input_token_limit : Z;
  area_system_prompt : string;
  area_context_prompt : string
}.

(** What the widgets allow: the select box has three options, the slider
    runs over [0.0, 1.0] and the number input over [1000, 8000]. *)
Definition sidebar_allowed (sb : sidebar) : Prop :=
  (sel_engine_type sb = "condense_question" \/
   sel_engine_type sb = "context" \/
   sel_engine_type sb = "condense_plus_context") /\
  PrimFloat.leb 0 (slider_temperature sb) = true /\
  PrimFloat.leb (slider_temperature sb) 1 = true /\
  (1000 <= input_token_limit sb <= 8000)%Z.

(** [config = {"temperature": temperature}] and the engine-specific entries
    the sidebar adds (the same statements in both files). *)
Definition sidebar_config (sb : sidebar) : gmap string pyval :=
  let config : gmap string pyval :=
    {[ "temperature" := PyFloat (slider_temperature sb) ]} in
  let engine_type := sel_engine_type sb in
  if String.eqb engine_type "context" || String.eqb engine_type "condense_plus_context" then
    let config := <[ "token_limit" := PyInt (input_token_limit sb) ]> config in
    if String.eqb engine_type "context" then
      <[ "system_prompt" := PyStr (area_system_prompt sb) ]> config
    else if String.eqb engine_type "condense_plus_context" then
      <[ "context_prompt" := PyStr (area_context_prompt sb) ]> config
    else config
  else config.

(** ** Python string methods used by the sidebar *)

(** [s.split(sep)] for a one-character separator: never empty, one more
    part than there are separators. *)
Fixpoint str_split (sep : ascii) (s : string) : list string :=
  match s with
  | EmptyString => [""]
  | String c s' =>
      if Ascii.eqb c sep then "" :: str_split sep s'
      else match str_split sep s' with
           | [] => [String c ""]
           | part :: parts => String c part :: parts
           end
  end.

(** [parts[-1]] of a list that [split] returned. *)
Definition str_last (parts : list string) : string := default "" (last parts).

(** [s.lower()] and [s.upper()] on ASCII text (a file extension the
    uploader accepts is ASCII); other bytes are left as they are. *)
Definition ascii_lower (c : ascii) : ascii :=
  let n := nat_of_ascii c in
  if (65 <=? n)%nat && (n <=? 90)%nat then ascii_of_nat (n + 32) else c.

Definition ascii_upper (c : ascii) : ascii :=
  let n := nat_of_ascii c in
  if (97 <=? n)%nat && (n <=? 122)%nat then ascii_of_nat (n - 32) else c.

Fixpoint str_map (f : ascii -> ascii) (s : string) : string :=
  match s with
  | EmptyString => EmptyString
  | String c s' => String (f c) (str_map f s')
  end.

Definition str_lower : string -> string := str_map ascii_lower.
Definition str_upper : string -> string := str_map ascii_upper.

(** [s.endswith(suffix)]. *)
Fixpoint str_endswith (s suffix : string) : bool :=
  String.eqb s suffix ||
  match s with
  | EmptyString => false
  | String _ s' => str_endswith s' suffix
  end.

(** [sorted(names)]: Python orders strings by code point, which for UTF-8
    text is the order of the bytes. *)
Definition str_le (a b : string) : Prop := String.leb a b = true.

#[export] Instance str_le_dec (a b : string) : Decision (str_le a b).
Proof. unfold str_le. apply _. Defined.

Definition sorted (names : list string) : list string := merge_sort str_le names.

(** A dictionary that counts, in insertion order:
    [d[key] = d.get(key, 0) + 1]. *)
Fixpoint dict_count (key : string) (d : list (string * nat)) : list (string * nat) :=
  match d with
  | [] => [(key, 1%nat)]
  | (k, n) :: d' =>
      if String.eqb k key then (k, S n) :: d' else (k, n) :: dict_count key d'
  end.

(** [d.get(key, 0)] on such a dictionary. *)
Fixpoint dict_count_get (key : string) (d : list (string * nat)) : nat :=
  match d with
  | [] => 0%nat
  | (k, n) :: d' => if String.eqb k key then n else dict_count_get key d'
  end.

(** The inputs of one script run. *)
Record interaction : Type := mkInteraction {
  i_world : World;
  i_sidebar : sidebar;
  i_chat_input : option string;
  i_clear : bool
}.

(** A file of [st.file_uploader]: its name and its bytes. *)
Record UploadedFile : Type := mkUpload {
  upload_name : string;
  upload_bytes : string
}.

(** [st.session_state.temp_dir] and the regular files of that directory,
    by name (the directory is made by [tempfile.mkdtemp()] and only the
    upload section writes to it). *)
Record upload_state : Type := mkUploadState {
  session_temp_dir : option string;
  temp_files : gmap string string
}.

(** Which calls of the "clear previous files" loop raise. *)
Record fs_faults : Type := mkFaults {
  listdir_raises : bool;
  remove_raises : string -> bool
}.

Definition no_faults : fs_faults := mkFaults false (fun _ => false).

(** What the "Current Data Path" section shows. *)
Inductive sidebar_element : Type :=
| sb_text (body : string)
| sb_warning (body : string)
| sb_error (body : string).

(** ** [sc_app/app.py] *)
Module sc_app.

Definition load_documents (w : World) : App (option (list Document)) :=
  let data_path := os_path_join (dirname w) "data" in
  match load_data w data_path with
  | Returns documents => mret (Some documents)
  | Raises e =>
      render (st_error ("Error loading documents: " +:+ e));;
      mret None
  end.

Definition create_index (documents : option (list Document)) (temperature : pyval)
    : App (option VectorStoreIndex) :=
  match documents with
  | None => mret None
  | Some documents =>
      let llm := OpenAI "gpt-4o" temperature in
      let embed_model := OpenAIEmbedding in
      set_Settings_llm llm;;
      set_Settings_embed_model embed_model;;
      s ← get_state;
      mret (Some (from_documents documents (settings s)))
  end.

(** [load_documents] and [create_index] as the rest of the file calls
    them, under their [@st.cache_resource] decorator. *)
Definition load_documents_cached (w : World) : App (option (list Document)) :=
  cache_resource load_documents_cache set_load_documents_cache
    [] (load_documents w).

Definition create_index_cached (documents : option (list Document))
    (temperature : pyval) : App (option VectorStoreIndex) :=
  cache_resource create_index_cache set_create_index_cache
    [ArgDocs documents; ArgVal temperature] (create_index documents temperature).

Definition create_chat_engine (index : option VectorStoreIndex)
    (engine_type : string) (config : gmap string pyval) : option ChatEngine :=
  match index with
  | None => None
  | Some index =>
    if String.eqb engine_type "condense_question" then
      Some (as_chat_engine index
              (mkArgs (Some "condense_question") None None None None (Some true)))
    else if String.eqb engine_type "context" then
      let memory := from_defaults (dict_get config "token_limit" (PyInt 3900)) in
      Some (as_chat_engine index
              (mkArgs (Some "context") (Some memory) None
                 (Some (dict_get config "system_prompt" (PyStr DEFAULT_PROMPT)))
                 None None))
    else if String.eqb engine_type "condense_plus_context" then
      let memory := from_defaults (dict_get config "token_limit" (PyInt 3900)) in
      let custom_llm := OpenAI "gpt-4o" (dict_get config "temperature" (PyFloat 0.3)) in
      Some (as_chat_engine index
              (mkArgs (Some "condense_plus_context") (Some memory) (Some custom_llm)
                 None
                 (Some (dict_get config "context_prompt" (PyStr DEFAULT_PROMPT)))
                 (Some true)))
    else
      Some (as_chat_engine index no_args)
  end.

(** [with st.spinner("Loading documents and creating index...")]: the
    engine of this run, or [None] after the error that ends the run. *)
Definition build_engine (w : World) (sb : sidebar) : App (option ChatEngine) :=
  documents ← load_documents_cached w;
  if truthy_documents documents then
    let temperature := PyFloat (slider_temperature sb) in
    index ← create_index_cached documents temperature;
    match index with
    | Some _ =>
        mret (create_chat_engine index (sel_engine_type sb) (sidebar_config sb))
    | None => render (st_error "Failed to create index");; mret None
    end
  else
    render (st_error "Failed to load documents");; mret None.

(** [for message in st.session_state.messages: ...] *)
Fixpoint display_messages (l : list message) : App unit :=
  match l with
  | [] => mret tt
  | m :: l => render (st_chat_message (role m) (content m));; display_messages l
  end.

(** [if prompt := st.chat_input(...)]: one turn of the conversation. *)
Definition chat_turn (w : World) (chat_engine : ChatEngine)
    (chat_input : option string) : App unit :=
  match chat_input with
  | None => mret tt
  | Some prompt =>
    if String.eqb prompt "" then mret tt
    else
      messages_append (mkMessage "user" prompt);;
      render (st_chat_message "user" prompt);;
      match chat w chat_engine prompt with
      | Returns response_text =>
          render (st_chat_message "assistant" response_text);;
          messages_append (mkMessage "assistant" response_text)
      | Raises e =>
          let error_msg := "Error generating response: " +:+ e in
          render (st_error error_msg);;
          messages_append (mkMessage "assistant" error_msg)
      end
  end.

(** One script run; the result says whether [st.rerun()] was called. *)
Definition main (w : World) (sb : sidebar) (chat_input : option string)
    (clear_button : bool) : App bool :=
  chat_engine ← build_engine w sb;
  match chat_engine with
  | None => mret false
  | Some chat_engine =>
      s ← get_state;
      display_messages (messages s);;
      chat_turn w chat_engine chat_input;;
      if clear_button then messages_clear;; mret true
      else mret false
  end.

(** A browser session: Streamlit runs [main] once per interaction, with the
    widget values of that moment; [st.rerun()] makes it run once more at
    once, with no chat input and the button released. *)
Fixpoint session (runs : list interaction) : App unit :=
  match runs with
  | [] => mret tt
  | r :: runs =>
      rerun ← main (i_world r) (i_sidebar r) (i_chat_input r) (i_clear r);
      (if rerun : bool then main (i_world r) (i_sidebar r) None false;; mret tt
       else mret tt);;
      session runs
  end.

End sc_app.

(** ** [sc_bedrock_app/app.py] *)
Module sc_bedrock_app.

Definition load_documents (w : World) (data_path : string)
    : App (option (list Document)) :=
  if negb (path_exists w data_path) then
    render (st_error ("Data path does not exist: " +:+ data_path));;
    mret None
  else
    match load_data w data_path with
    | Returns documents =>
        match documents with
        | [] =>
            render (st_error ("No documents found in: " +:+ data_path));;
            mret None
        | _ :: _ => mret (Some documents)
        end
    | Raises e =>
        render (st_error ("Error loading documents: " +:+ e));;
        mret None
    end.

Definition create_index (documents : option (list Document)) (temperature : pyval)
    : App (option VectorStoreIndex) :=
  match documents with
  | None => mret None
  | Some documents =>
      let llm := BedrockConverse "amazon.nova-pro-v1:0" temperature 3000 in
      let embed_model := BedrockEmbedding "amazon.titan-embed-text-v2:0" in
      set_Settings_llm llm;;
      set_Settings_embed_model embed_model;;
      s ← get_state;
      mret (Some (from_documents documents (settings s)))
  end.

(** [load_documents] and [create_index] under [@st.cache_resource]. *)
Definition load_documents_cached (w : World) (data_path : string)
    : App (option (list Document)) :=
  cache_resource load_documents_cache set_load_documents_cache
    [ArgStr data_path] (load_documents w data_path).

Definition create_index_cached (documents : option (list Document))
    (temperature : pyval) : App (option VectorStoreIndex) :=
  cache_resource create_index_cache set_create_index_cache
    [ArgDocs documents; ArgVal temperature] (create_index documents temperature).

Definition create_chat_engine (index : option VectorStoreIndex)
    (engine_type : string) (config : gmap string pyval) : option ChatEngine :=
  match index with
  | None => None
  | Some index =>
    if String.eqb engine_type "condense_question" then
      Some (as_chat_engine index
              (mkArgs (Some "condense_question") None None None None (Some true)))
    else if String.eqb engine_type "context" then
      let memory := from_defaults (dict_get config "token_limit" (PyInt 3900)) in
      Some (as_chat_engine index
              (mkArgs (Some "context") (Some memory) None
                 (Some (dict_get config "system_prompt" (PyStr DEFAULT_PROMPT)))
                 None None))
    else if String.eqb engine_type "condense_plus_context" then
      let memory := from_defaults (dict_get config "token_limit" (PyInt 3900)) in
      let custom_llm :=
        BedrockConverse "amazon.nova-pro-v1:0"
          (dict_get config "temperature" (PyFloat 0.3)) 3000 in
      Some (as_chat_engine index
              (mkArgs (Some "condense_plus_context") (Some memory) (Some custom_llm)
                 None
                 (Some (dict_get config "context_prompt" (PyStr DEFAULT_PROMPT)))
                 (Some true)))
    else
      Some (as_chat_engine index no_args)
  end.

(** [data_path] is what the sidebar's data-source section resolved to. *)
Definition build_engine (w : World) (data_path : string) (sb : sidebar)
    : App (option ChatEngine) :=
  documents ← load_documents_cached w data_path;
  if truthy_documents documents then
    let temperature := PyFloat (slider_temperature sb) in
    index ← create_index_cached documents temperature;
    match index with
    | Some _ =>
        mret (create_chat_engine index (sel_engine_type sb) (sidebar_config sb))
    | None => render (st_error "Failed to create index");; mret None
    end
  else
    render (st_error "Failed to load documents");; mret None.

Fixpoint display_messages (l : list message) : App unit :=
  match l with
  | [] => mret tt
  | m :: l => render (st_chat_message (role m) (content m));; display_messages l
  end.

Definition chat_turn (w : World) (chat_engine : ChatEngine)
    (chat_input : option string) : App unit :=
  match chat_input with
  | None => mret tt
  | Some prompt =>
    if String.eqb prompt "" then mret tt
    else
      messages_append (mkMessage "user" prompt);;
      render (st_chat_message "user" prompt);;
      match chat w chat_engine prompt with
      | Returns response_text =>
          render (st_chat_message "assistant" response_text);;
          messages_append (mkMessage "assistant" response_text)
      | Raises e =>
          let error_msg := "Error generating response: " +:+ e in
          render (st_error error_msg);;
          messages_append (mkMessage "assistant" error_msg)
      end
  end.

Definition main (w : World) (data_path : string) (sb : sidebar)
    (chat_input : option string) (clear_button : bool) : App bool :=
  chat_engine ← build_engine w data_path sb;
  match chat_engine with
  | None => mret false
  | Some chat_engine =>
      s ← get_state;
      display_messages (messages s);;
      chat_turn w chat_engine chat_input;;
      if clear_button then messages_clear;; mret true
      else mret false
  end.

(** A session of the Bedrock program; [data_path] is resolved anew in
    every run. *)
Fixpoint session (runs : list (string * interaction)) : App unit :=
  match runs with
  | [] => mret tt
  | (data_path, r) :: runs =>
      rerun ← main (i_world r) data_path (i_sidebar r) (i_chat_input r) (i_clear r);
      (if rerun : bool then main (i_world r) data_path (i_sidebar r) None false;; mret tt
       else mret tt);;
      session runs
  end.

(** *** The sidebar's data-source section *)

(** [ext = f.name.split('.')[-1].lower()] *)
Definition file_ext (f : UploadedFile) : string :=
  str_lower (str_last (str_split "."%char (upload_name f))).

(** The [file_types] dictionary of the "File Stats" column. *)
Definition file_types (uploaded_files : list UploadedFile) : list (string * nat) :=
  fold_left (fun d f => dict_count (file_ext f) d) uploaded_files [].

(** The lines below "File Types:". *)
Definition file_types_lines (uploaded_files : list UploadedFile) : list string :=
  map (fun '(ext, count) => "📄 " +:+ str_upper ext +:+ ": " +:+ pretty count)
      (file_types uploaded_files).

(** "Clear previous files": every regular file of the directory is
    removed, in the order [os.listdir] gives them (here the order of
    [map_to_list]); the first exception ends the loop and is ignored. *)
Fixpoint remove_files (faults : fs_faults) (names : list string)
    (files : gmap string string) : gmap string string :=
  match names with
  | [] => files
  | name :: names =>
      if remove_raises faults name then files
      else remove_files faults names (delete name files)
  end.

Definition clear_previous_files (faults : fs_faults) (files : gmap string string)
    : gmap string string :=
  if listdir_raises faults then files
  else remove_files faults (map fst (map_to_list files)) files.

(** "Save new files": each upload is written under its own name. *)
Definition save_new_files (uploaded_files : list UploadedFile)
    (files : gmap string string) : gmap string string :=
  fold_left (fun files f => <[ upload_name f := upload_bytes f ]> files)
            uploaded_files files.

(** The data-source section: the [data_path] of this run and the state of
    the session's temporary directory after it.  [fresh_dir] is what
    [tempfile.mkdtemp()] would return, a new empty directory. *)
Definition select_data_path (w : World) (path_method : string)
    (custom_path : string) (uploaded_files : list UploadedFile)
    (faults : fs_faults) (fresh_dir : string) (us : upload_state)
    : string * upload_state :=
  if String.eqb path_method "Use default data folder" then
    (os_path_join (dirname w) "data", us)
  else if String.eqb path_method "Enter custom path" then
    (custom_path, us)
  else
    match uploaded_files with
    | _ :: _ =>
        let '(temp_dir, files) :=
          match session_temp_dir us with
          | Some d => (d, temp_files us)
          | None => (fresh_dir, ∅)
          end in
        let files := clear_previous_files faults files in
        let files := save_new_files uploaded_files files in
        (temp_dir, mkUploadState (Some temp_dir) files)
    | [] => (os_path_join (dirname w) "data", us)
    end.

(** *** The sidebar's "Current Data Path" section *)

Definition SUPPORTED : list string := [".txt"; ".md"; ".pdf"; ".docx"].

(** [f.endswith(('.txt', '.md', '.pdf', '.docx'))] *)
Definition supported (f : string) : bool := existsb (str_endswith f) SUPPORTED.

(** What is shown under the path: [exists] is [os.path.exists(data_path)]
    and [listing] the outcome of [os.listdir(data_path)]. *)
Definition available_documents (exists_ : bool) (listing : result (list string))
    : list sidebar_element :=
  if exists_ then
    match listing with
    | Returns names =>
        let files := filter (fun f => supported f = true) names in
        match files with
        | _ :: _ =>
            sb_text "Available documents:" ::
            map (fun file => sb_text ("• " +:+ file)) (take 10 (sorted files)) ++
            (if (10 <? length files)%nat
             then [sb_text ("... and " +:+ pretty (length files - 10)%nat +:+ " more files")]
             else [])
        | [] => [sb_warning "No supported document files found in directory"]
        end
    | Raises e => [sb_error ("Error reading directory: " +:+ e)]
    end
  else [sb_error "Directory does not exist"].

End sc_bedrock_app.

(** Unfolds the monad and the state operations in a goal. *)
Ltac app_unfold :=
  cbv [run exec eval mbind mret App_bind App_ret get_state render
       messages_append messages_clear set_Settings_llm set_Settings_embed_model
       set_load_documents_cache set_create_index_cache];
  cbn [fst snd messages settings screen load_documents_cache create_index_cache].

(** ** Concrete inputs used by the examples below *)

Definition corpus0 : list Document :=
  [ mkDocument "data/AlbertEinstein.txt" "Albert was born in 1879.";
    mkDocument "data/MarieCurie.txt" "Marie won two Nobel prizes." ].

Definition idx0 : VectorStoreIndex :=
  from_documents corpus0
    (mkSettings (Some (OpenAI "gpt-4o" (PyFloat 0.7))) (Some OpenAIEmbedding)).

(** A strategy name outside the three the factory tests for. *)
Definition unrecognized (engine_type : string) : Prop :=
  engine_type <> "condense_question" /\
  engine_type <> "context" /\
  engine_type <> "condense_plus_context".

(** The memory buffer handed to the engine a factory call returned. *)
Definition engine_memory (r : option ChatEngine) : option ChatMemoryBuffer :=
  e ← r; memory (engine_args e).

(** The completion provider and the prompts handed to the engine a factory
    call returned. *)
Definition engine_llm (r : option ChatEngine) : option LLM :=
  e ← r; llm (engine_args e).

Definition engine_system_prompt (r : option ChatEngine) : option pyval :=
  e ← r; system_prompt (engine_args e).

Definition engine_context_prompt (r : option ChatEngine) : option pyval :=
  e ← r; context_prompt (engine_args e).

(** A data directory that exists and from which the reader returns no
    document at all. *)
Definition world_no_documents : World :=
  mkWorld "/srv/app" (fun _ => true) (fun _ => Returns [])
          (fun _ _ => Returns "ok").

(** A provider that is out of quota. *)
Definition world_provider_down : World :=
  mkWorld "/srv/app" (fun _ => true) (fun _ => Returns corpus0)
          (fun _ _ => Raises "quota exceeded").

(** Widget values of a run in "context" mode. *)
Definition sidebar0 : sidebar :=
  mkSidebar "context" 0.3 3900 DEFAULT_PROMPT DEFAULT_PROMPT.

(** A history made of whole turns: a user message with a non-empty text,
    then an assistant message, and so on. *)
Fixpoint turns_ok (l : list message) : Prop :=
  match l with
  | [] => True
  | u :: a :: l' =>
      role u = "user" /\ content u <> "" /\ role a = "assistant" /\ turns_ok l'
  | _ => False
  end.

Definition history_inv (s : app_state) : Prop := turns_ok (messages s).

(** Every memoized index build returned an index, and the error of the
    branch that handles a failed build was never rendered. *)
Definition index_inv (s : app_state) : Prop :=
  Forall (fun kv => is_Some (snd kv)) (create_index_cache s) /\
  st_error "Failed to create index" ∉ screen s.

(** A history with two turns, and widget values for the third. *)
Definition state_two_turns : app_state :=
  mkState [mkMessage "user" "Who was Marie?"; mkMessage "assistant" "A physicist.";
           mkMessage "user" "And Albert?"; mkMessage "assistant" "Also one."]
          (mkSettings None None) [] [] [].

Definition interaction0 : interaction :=
  mkInteraction world_provider_down sidebar0 (Some "Were they friends?") false.

(** Whether a character occurs in a string. *)
Fixpoint has_char (c : ascii) (s : string) : bool :=
  match s with
  | EmptyString => false
  | String c' s' => Ascii.eqb c' c || has_char c s'
  end.

(** How many of the uploaded files have a given extension. *)
Definition ext_count (ext : string) (files : list UploadedFile) : nat :=
  length (filter (fun f => sc_bedrock_app.file_ext f = ext) files).

(** The bytes of the last uploaded file of a given name, if any. *)
Definition last_upload (name : string) (ups : list UploadedFile) : option string :=
  upload_bytes <$> last (filter (fun g => upload_name g = name) ups).

(** The radio button is on its third option, "Upload files". *)
Definition upload_method (path_method : string) : Prop :=
  path_method <> "Use default data folder" /\ path_method <> "Enter custom path".

(** Two uploads of one name and a third file; a directory left by an
    earlier run. *)
Definition uploads0 : list UploadedFile :=
  [mkUpload "notes.TXT" "first"; mkUpload "paper.pdf" "%PDF"; mkUpload "notes.TXT" "second"].

Definition upload_state0 : upload_state :=
  mkUploadState (Some "/tmp/tmpabc") {[ "old.txt" := "stale" ]}.

(** The state a run ends in when it answers a prompt, given the state the
    engine build left. *)
Definition after_answer (s s1 : app_state) (prompt response_text : string) : app_state :=
  mkState
    (messages s ++ [mkMessage "user" prompt; mkMessage "assistant" response_text])
    (settings s1)
    (screen s1 ++ map (fun m => st_chat_message (role m) (content m)) (messages s) ++
       [st_chat_message "user" prompt; st_chat_message "assistant" response_text])
    (load_documents_cache s1) (create_index_cache s1).

(** ** Properties of the engine factory *)

Lemma unrecognized_eqb engine_type :
  unrecognized engine_type ->
  String.eqb engine_type "condense_question" = false /\
  String.eqb engine_type "context" = false /\
  String.eqb engine_type "condense_plus_context" = false.
Proof.
  intros (H1 & H2 & H3).
  repeat split; now apply String.eqb_neq.
Qed.

Lemma unrecognized_unknown : unrecognized "unknown".
Proof. repeat split; discriminate. Qed.

Lemma dict_get_absent config key dflt :
  config !! key = None -> dict_get config key dflt = dflt.
Proof. intros H. unfold dict_get. now rewrite H. Qed.


(** C1, as the claim states it, fails: for the name "unknown" both
    factories return an engine (the index's default one) and not an error. *)
Lemma C1_unknown_strategy_returns_engine :
  unrecognized "unknown" /\
  sc_app.create_chat_engine (Some idx0) "unknown" ∅
    = Some (as_chat_engine idx0 no_args) /\
  sc_bedrock_app.create_chat_engine (Some idx0) "unknown" ∅
    = Some (as_chat_engine idx0 no_args) /\
  sc_app.create_chat_engine (Some idx0) "unknown" ∅ <> None /\
  sc_bedrock_app.create_chat_engine (Some idx0) "unknown" ∅ <> None.
Proof.
  split; [exact unrecognized_unknown|].
  repeat split; vm_compute; congruence.
Qed.

(** C1 (amended): for every strategy name that is not one of the three
    recognized values, [create_chat_engine] with a non-None index falls
    back to the index's default engine, [index.as_chat_engine()] called
    with no argument, whatever the configuration; no error is produced. *)
Theorem C1_unrecognized_strategy_default_engine
    (index : VectorStoreIndex) (engine_type : string) (config : gmap string pyval) :
  unrecognized engine_type ->
  sc_app.create_chat_engine (Some index) engine_type config
    = Some (as_chat_engine index no_args) /\
  sc_bedrock_app.create_chat_engine (Some index) engine_type config
    = Some (as_chat_engine index no_args).
Proof.
  intros H. destruct (unrecognized_eqb _ H) as (E1 & E2 & E3).
  unfold sc_app.create_chat_engine, sc_bedrock_app.create_chat_engine.
  rewrite E1, E2, E3. split; reflexivity.
Qed.

Lemma C1_unrecognized_strategy_default_engine_witness :
  sc_app.create_chat_engine (Some idx0) "unknown" {[ "token_limit" := PyInt 2000 ]}
    = Some (as_chat_engine idx0 no_args) /\
  sc_bedrock_app.create_chat_engine (Some idx0) "unknown" {[ "token_limit" := PyInt 2000 ]}
    = Some (as_chat_engine idx0 no_args).
Proof.
  apply (C1_unrecognized_strategy_default_engine idx0 "unknown").
  repeat split; discriminate.
Defined.




Lemma PyFloat_neq (a b : float) :
  PrimFloat.eqb a a = true -> PrimFloat.eqb a b = false -> PyFloat a <> PyFloat b.
Proof.
  intros Ha Hab E.
  assert (F : float_of (PyFloat a) = float_of (PyFloat b)) by (now rewrite E).
  cbn in F. inversion F as [F']. rewrite <- F' in Hab. congruence.
Qed.

(** C5: a "condense_plus_context" engine is given a completion provider of
    its own, built with the temperature of the engine's configuration (0.3
    when the configuration has none); that temperature can differ from the
    one the index was built with. *)
Theorem C5_condense_plus_context_own_temperature :
  (forall (index : VectorStoreIndex) (config : gmap string pyval),
     engine_llm (sc_app.create_chat_engine (Some index) "condense_plus_context" config)
       = Some (OpenAI "gpt-4o" (default (PyFloat 0.3) (config !! "temperature"))) /\
     engine_llm (sc_bedrock_app.create_chat_engine (Some index) "condense_plus_context" config)
       = Some (BedrockConverse "amazon.nova-pro-v1:0"
                 (default (PyFloat 0.3) (config !! "temperature")) 3000)) /\
  (exists (s : app_state) (index : VectorStoreIndex) (config : gmap string pyval) (l : LLM),
     eval (sc_app.create_index (Some corpus0) (PyFloat 0.7)) s = Some index /\
     llm_temperature <$> Settings_llm (index_settings index) = Some (PyFloat 0.7) /\
     engine_llm (sc_app.create_chat_engine (Some index) "condense_plus_context" config)
       = Some l /\
     llm_temperature l <> PyFloat 0.7) /\
  (exists (s : app_state) (index : VectorStoreIndex) (config : gmap string pyval) (l : LLM),
     eval (sc_bedrock_app.create_index (Some corpus0) (PyFloat 0.7)) s = Some index /\
     llm_temperature <$> Settings_llm (index_settings index) = Some (PyFloat 0.7) /\
     engine_llm (sc_bedrock_app.create_chat_engine (Some index) "condense_plus_context" config)
       = Some l /\
     llm_temperature l <> PyFloat 0.7).
Proof.
  split; [intros index config; split; reflexivity|].
  split.
  - exists initial_state; eexists; exists {[ "temperature" := PyFloat 0.2 ]}; eexists.
    split; [reflexivity|]. split; [reflexivity|]. split; [reflexivity|].
    cbn. apply PyFloat_neq; reflexivity.
  - exists initial_state; eexists; exists ∅; eexists.
    split; [reflexivity|]. split; [reflexivity|]. split; [reflexivity|].
    cbn. apply PyFloat_neq; reflexivity.
Qed.

(** C6: the "condense_question" engine does not depend on the
    configuration: two configurations give the same engine over the same
    index, and that engine is created without a memory buffer (and without
    a provider or prompt of its own). *)
Theorem C6_condense_question_ignores_config
    (index : VectorStoreIndex) (config1 config2 : gmap string pyval) :
  sc_app.create_chat_engine (Some index) "condense_question" config1
    = sc_app.create_chat_engine (Some index) "condense_question" config2 /\
  sc_bedrock_app.create_chat_engine (Some index) "condense_question" config1
    = sc_bedrock_app.create_chat_engine (Some index) "condense_question" config2 /\
  (exists e, sc_app.create_chat_engine (Some index) "condense_question" config1 = Some e /\
             engine_index e = index /\
             chat_mode (engine_args e) = Some "condense_question" /\
             memory (engine_args e) = None) /\
  (exists e, sc_bedrock_app.create_chat_engine (Some index) "condense_question" config1 = Some e /\
             engine_index e = index /\
             chat_mode (engine_args e) = Some "condense_question" /\
             memory (engine_args e) = None).
Proof.
  repeat split; eexists; repeat split.
Qed.

(** C10: an option the configuration lacks is replaced by a fixed default
    and construction still succeeds: [token_limit] becomes 3900,
    [temperature] 0.3, and [system_prompt] ("context") and [context_prompt]
    ("condense_plus_context") both become the same sentence about Albert
    and Marie.  The factory returns an engine for every strategy name and
    every configuration. *)
Theorem C10_missing_options_get_defaults
    (index : VectorStoreIndex) (config : gmap string pyval) :
  (forall engine_type,
     is_Some (sc_app.create_chat_engine (Some index) engine_type config) /\
     is_Some (sc_bedrock_app.create_chat_engine (Some index) engine_type config)) /\
  (config !! "token_limit" = None ->
     engine_memory (sc_app.create_chat_engine (Some index) "context" config)
       = Some (from_defaults (PyInt 3900)) /\
     engine_memory (sc_app.create_chat_engine (Some index) "condense_plus_context" config)
       = Some (from_defaults (PyInt 3900)) /\
     engine_memory (sc_bedrock_app.create_chat_engine (Some index) "context" config)
       = Some (from_defaults (PyInt 3900)) /\
     engine_memory (sc_bedrock_app.create_chat_engine (Some index) "condense_plus_context" config)
       = Some (from_defaults (PyInt 3900))) /\
  (config !! "temperature" = None ->
     engine_llm (sc_app.create_chat_engine (Some index) "condense_plus_context" config)
       = Some (OpenAI "gpt-4o" (PyFloat 0.3)) /\
     engine_llm (sc_bedrock_app.create_chat_engine (Some index) "condense_plus_context" config)
       = Some (BedrockConverse "amazon.nova-pro-v1:0" (PyFloat 0.3) 3000)) /\
  (config !! "system_prompt" = None ->
     engine_system_prompt (sc_app.create_chat_engine (Some index) "context" config)
       = Some (PyStr "You are familiar with biographies of Albert and Marie, as well as their professional and social friendships and relationships.") /\
     engine_system_prompt (sc_bedrock_app.create_chat_engine (Some index) "context" config)
       = Some (PyStr "You are familiar with biographies of Albert and Marie, as well as their professional and social friendships and relationships.")) /\
  (config !! "context_prompt" = None ->
     engine_context_prompt
         (sc_app.create_chat_engine (Some index) "condense_plus_context" config)
       = Some (PyStr "You are familiar with biographies of Albert and Marie, as well as their professional and social friendships and relationships.") /\
     engine_context_prompt
         (sc_bedrock_app.create_chat_engine (Some index) "condense_plus_context" config)
       = Some (PyStr "You are familiar with biographies of Albert and Marie, as well as their professional and social friendships and relationships.")).
Proof.
  split.
  { intros engine_type.
    unfold sc_app.create_chat_engine, sc_bedrock_app.create_chat_engine.
    destruct (String.eqb engine_type "condense_question");
      [split; eexists; reflexivity|].
    destruct (String.eqb engine_type "context");
      [split; eexists; reflexivity|].
    destruct (String.eqb engine_type "condense_plus_context");
      split; eexists; reflexivity. }
  repeat split; cbn; now rewrite (dict_get_absent _ _ _ H).
Qed.

Lemma C10_missing_options_get_defaults_witness :
  is_Some (sc_app.create_chat_engine (Some idx0) "context" ∅) /\
  engine_memory (sc_app.create_chat_engine (Some idx0) "context" ∅)
    = Some (from_defaults (PyInt 3900)) /\
  engine_llm (sc_bedrock_app.create_chat_engine (Some idx0) "condense_plus_context" ∅)
    = Some (BedrockConverse "amazon.nova-pro-v1:0" (PyFloat 0.3) 3000) /\
  engine_system_prompt (sc_app.create_chat_engine (Some idx0) "context" ∅)
    = Some (PyStr DEFAULT_PROMPT) /\
  engine_context_prompt
      (sc_bedrock_app.create_chat_engine (Some idx0) "condense_plus_context" ∅)
    = Some (PyStr DEFAULT_PROMPT).
Proof.
  destruct (C10_missing_options_get_defaults idx0 ∅) as (T & L & F & P & Q).
  split; [apply (T "context")|].
  split; [apply L; reflexivity|].
  split; [apply F; reflexivity|].
  split; [apply P; reflexivity|apply Q; reflexivity].
Defined.

(** ** Properties of the index build *)

(** C9: building the index changes the process-wide [Settings]: the
    body of [create_index] stores a completion provider with the given
    temperature in [Settings.llm] and an embedding provider in
    [Settings.embed_model], and only then builds the index, which is
    therefore built under the new defaults; nothing else of the state
    changes.  A later build replaces what an earlier one stored, so after
    two builds the defaults are those of the second. *)
Theorem C9_create_index_sets_global_settings
    (documents documents' : list Document) (temperature temperature' : pyval)
    (s : app_state) :
  let openai t := mkSettings (Some (OpenAI "gpt-4o" t)) (Some OpenAIEmbedding) in
  let bedrock t :=
    mkSettings (Some (BedrockConverse "amazon.nova-pro-v1:0" t 3000))
               (Some (BedrockEmbedding "amazon.titan-embed-text-v2:0")) in
  (run (sc_app.create_index (Some documents) temperature) s
     = (Some (from_documents documents (openai temperature)),
        mkState (messages s) (openai temperature) (screen s)
                (load_documents_cache s) (create_index_cache s))) /\
  (run (sc_bedrock_app.create_index (Some documents) temperature) s
     = (Some (from_documents documents (bedrock temperature)),
        mkState (messages s) (bedrock temperature) (screen s)
                (load_documents_cache s) (create_index_cache s))) /\
  settings (exec (sc_app.create_index (Some documents) temperature;;
                  sc_app.create_index (Some documents') temperature') s)
    = openai temperature' /\
  settings (exec (sc_bedrock_app.create_index (Some documents) temperature;;
                  sc_bedrock_app.create_index (Some documents') temperature') s)
    = bedrock temperature'.
Proof.
  cbv zeta. repeat split.
Qed.

(** Two builds at 0.3 and 0.7, in either order: the global completion
    provider is left at the temperature of whichever build ran last. *)
Example create_index_last_build_wins :
  Settings_llm (settings (exec (sc_app.create_index (Some corpus0) (PyFloat 0.3);;
                                sc_app.create_index (Some corpus0) (PyFloat 0.7))
                               initial_state))
    = Some (OpenAI "gpt-4o" (PyFloat 0.7)) /\
  Settings_llm (settings (exec (sc_app.create_index (Some corpus0) (PyFloat 0.7);;
                                sc_app.create_index (Some corpus0) (PyFloat 0.3))
                               initial_state))
    = Some (OpenAI "gpt-4o" (PyFloat 0.3)).
Proof. split; reflexivity. Qed.

(** ** Properties of the document loaders *)

(** X1: the loader of [sc_bedrock_app] returns [None], after rendering one
    error, when the path does not exist and when the reader returns no
    document. *)
Lemma bedrock_load_documents_fails (w : World) (data_path : string) (s : app_state) :
  path_exists w data_path = false \/ load_data w data_path = Returns [] ->
  eval (sc_bedrock_app.load_documents w data_path) s = None /\
  exists body, screen (exec (sc_bedrock_app.load_documents w data_path) s)
               = screen s ++ [st_error body].
Proof.
  intros H. unfold sc_bedrock_app.load_documents.
  destruct (path_exists w data_path) eqn:E; cbn.
  - destruct H as [H|H]; [discriminate|]. rewrite H. cbn.
    split; [reflexivity|]. eexists; reflexivity.
  - split; [reflexivity|]. eexists; reflexivity.
Qed.

Lemma bedrock_load_documents_fails_witness :
  eval (sc_bedrock_app.load_documents world_no_documents "/srv/uploads") initial_state
    = None /\
  exists body,
    screen (exec (sc_bedrock_app.load_documents world_no_documents "/srv/uploads")
                 initial_state)
      = screen initial_state ++ [st_error body].
Proof.
  apply bedrock_load_documents_fails. right. reflexivity.
Defined.

(** C7 at the failing input: when the reader returns no document for the
    data directory, the loader of [sc_app] returns the empty sequence and
    renders no error, where the loader of [sc_bedrock_app] returns [None]
    after an error message. *)
Theorem C7_sc_app_loader_returns_empty_sequence :
  run (sc_app.load_documents world_no_documents) initial_state
    = (Some [], initial_state) /\
  eval (sc_bedrock_app.load_documents world_no_documents "/srv/app/data") initial_state
    = None /\
  screen (exec (sc_bedrock_app.load_documents world_no_documents "/srv/app/data")
               initial_state)
    = [st_error "No documents found in: /srv/app/data"].
Proof. repeat split. Qed.

(** ** Properties of the chat loop *)

(** C8: when the engine's [chat] call raises, the turn ends with the
    user's message still in the conversation history, followed by an
    assistant message that carries the error text; the same text is shown
    as an error, and it is never empty. *)
Theorem C8_failed_turn_keeps_user_message
    (w : World) (chat_engine : ChatEngine) (prompt e : string) (s : app_state) :
  prompt <> "" ->
  chat w chat_engine prompt = Raises e ->
  let error_msg := "Error generating response: " +:+ e in
  let s1 := exec (sc_app.chat_turn w chat_engine (Some prompt)) s in
  let s2 := exec (sc_bedrock_app.chat_turn w chat_engine (Some prompt)) s in
  error_msg <> "" /\
  messages s1
    = messages s ++ [mkMessage "user" prompt; mkMessage "assistant" error_msg] /\
  screen s1 = screen s ++ [st_chat_message "user" prompt; st_error error_msg] /\
  messages s2
    = messages s ++ [mkMessage "user" prompt; mkMessage "assistant" error_msg] /\
  screen s2 = screen s ++ [st_chat_message "user" prompt; st_error error_msg].
Proof.
  intros Hp He. cbv zeta.
  apply String.eqb_neq in Hp.
  unfold sc_app.chat_turn, sc_bedrock_app.chat_turn.
  rewrite Hp, He. app_unfold.
  rewrite <- !app_assoc. cbn.
  repeat split; discriminate.
Qed.

Lemma C8_failed_turn_keeps_user_message_witness :
  let engine := as_chat_engine idx0 no_args in
  let s := mkState [mkMessage "user" "Who was Marie?"; mkMessage "assistant" "A physicist."]
                   (mkSettings None None) [] [] [] in
  let error_msg := "Error generating response: quota exceeded" in
  let s1 := exec (sc_app.chat_turn world_provider_down engine (Some "And Albert?")) s in
  let s2 := exec (sc_bedrock_app.chat_turn world_provider_down engine (Some "And Albert?")) s in
  error_msg <> "" /\
  messages s1
    = messages s ++ [mkMessage "user" "And Albert?"; mkMessage "assistant" error_msg] /\
  screen s1 = screen s ++ [st_chat_message "user" "And Albert?"; st_error error_msg] /\
  messages s2
    = messages s ++ [mkMessage "user" "And Albert?"; mkMessage "assistant" error_msg] /\
  screen s2 = screen s ++ [st_chat_message "user" "And Albert?"; st_error error_msg].
Proof.
  cbv zeta.
  apply (C8_failed_turn_keeps_user_message world_provider_down
           (as_chat_engine idx0 no_args) "And Albert?" "quota exceeded").
  - discriminate.
  - reflexivity.
Defined.

(** X3: a successful turn appends the user's message and then the
    assistant's answer to the history, and renders both. *)
Theorem successful_turn_appends_both_messages
    (w : World) (chat_engine : ChatEngine) (prompt response_text : string)
    (s : app_state) :
  prompt <> "" ->
  chat w chat_engine prompt = Returns response_text ->
  let s1 := exec (sc_app.chat_turn w chat_engine (Some prompt)) s in
  let s2 := exec (sc_bedrock_app.chat_turn w chat_engine (Some prompt)) s in
  messages s1
    = messages s ++ [mkMessage "user" prompt; mkMessage "assistant" response_text] /\
  screen s1
    = screen s ++ [st_chat_message "user" prompt;
                   st_chat_message "assistant" response_text] /\
  s2 = s1.
Proof.
  intros Hp He. cbv zeta.
  apply String.eqb_neq in Hp.
  unfold sc_app.chat_turn, sc_bedrock_app.chat_turn.
  rewrite Hp, He. app_unfold.
  rewrite <- !app_assoc. cbn.
  repeat split.
Qed.

Lemma successful_turn_appends_both_messages_witness :
  let engine := as_chat_engine idx0 no_args in
  let s1 := exec (sc_app.chat_turn world_no_documents engine (Some "Hello")) initial_state in
  let s2 := exec (sc_bedrock_app.chat_turn world_no_documents engine (Some "Hello"))
                 initial_state in
  messages s1
    = messages initial_state ++ [mkMessage "user" "Hello"; mkMessage "assistant" "ok"] /\
  screen s1
    = screen initial_state ++ [st_chat_message "user" "Hello";
                               st_chat_message "assistant" "ok"] /\
  s2 = s1.
Proof.
  cbv zeta.
  apply (successful_turn_appends_both_messages world_no_documents
           (as_chat_engine idx0 no_args) "Hello" "ok").
  - discriminate.
  - reflexivity.
Defined.

(** One whole script run of either program while the provider is down:
    the history ends with the user's message and the error text. *)
Example main_provider_down :
  messages (exec (sc_app.main world_provider_down sidebar0 (Some "And Albert?") false)
                 initial_state)
    = [mkMessage "user" "And Albert?";
       mkMessage "assistant" "Error generating response: quota exceeded"] /\
  messages (exec (sc_bedrock_app.main world_provider_down "/srv/app/data" sidebar0
                    (Some "And Albert?") false)
                 initial_state)
    = [mkMessage "user" "And Albert?";
       mkMessage "assistant" "Error generating response: quota exceeded"].
Proof. split; vm_compute; reflexivity. Qed.

(** One script run over a corpus without documents: neither program
    builds an engine, and both end on the same error. *)
Example main_no_documents :
  run (sc_app.main world_no_documents sidebar0 (Some "Hello") false) initial_state
    = (false,
       mkState [] (mkSettings None None) [st_error "Failed to load documents"]
               [([], Some [])] []) /\
  run (sc_bedrock_app.main world_no_documents "/srv/app/data" sidebar0 (Some "Hello") false)
      initial_state
    = (false,
       mkState [] (mkSettings None None)
               [st_error "No documents found in: /srv/app/data";
                st_error "Failed to load documents"]
               [([ArgStr "/srv/app/data"], None)] []).
Proof. split; vm_compute; reflexivity. Qed.

(** ** What the callers add *)

(** X2: the sidebar offers only the three strategy names and only token
    limits in [1000, 8000]: with the widget values of any script run the factory
    takes the branch of the selected strategy, never the fallback, and a
    memory buffer it creates has a limit in that range. *)
Theorem widgets_keep_factory_in_range (index : VectorStoreIndex) (sb : sidebar) :
  sidebar_allowed sb ->
  forall create,
    create = sc_app.create_chat_engine \/ create = sc_bedrock_app.create_chat_engine ->
    exists e,
      create (Some index) (sel_engine_type sb) (sidebar_config sb) = Some e /\
      chat_mode (engine_args e) = Some (sel_engine_type sb) /\
      (forall m, memory (engine_args e) = Some m ->
         exists z, token_limit m = PyInt z /\ (1000 <= z <= 8000)%Z).
Proof.
  intros (Ht & _ & _ & Hz) create Hc.
  destruct sb as [ty t z sp cp]; cbn in Ht, Hz.
  unfold sidebar_config; cbn [sel_engine_type slider_temperature input_token_limit
                               area_system_prompt area_context_prompt].
  destruct Ht as [-> | [-> | ->]]; destruct Hc as [-> | ->];
    cbn [String.eqb Ascii.eqb Bool.eqb orb];
    unfold sc_app.create_chat_engine, sc_bedrock_app.create_chat_engine;
    cbn [String.eqb Ascii.eqb Bool.eqb];
    eexists; (split; [reflexivity|]); (split; [reflexivity|]);
    cbn [engine_args memory]; intros m Hm; try discriminate;
    injection Hm as <-; exists z; (split; [|exact Hz]);
    cbn [token_limit]; unfold dict_get; now simplify_map_eq.
Qed.

Lemma widgets_keep_factory_in_range_witness :
  exists e,
    sc_app.create_chat_engine (Some idx0) (sel_engine_type sidebar0)
        (sidebar_config sidebar0) = Some e /\
    chat_mode (engine_args e) = Some (sel_engine_type sidebar0) /\
    (forall m, memory (engine_args e) = Some m ->
       exists z, token_limit m = PyInt z /\ (1000 <= z <= 8000)%Z).
Proof.
  apply (widgets_keep_factory_in_range idx0 sidebar0).
  - split; [right; left; reflexivity|].
    split; [reflexivity|]. split; [reflexivity|]. cbn. lia.
  - left; reflexivity.
Defined.

Lemma Document_list_eqb_refl (documents : list Document) :
  list_eqb Document_eqb documents documents = true.
Proof.
  induction documents as [|d documents IH]; [reflexivity|].
  cbn [list_eqb]. rewrite IH. unfold Document_eqb. now rewrite !String.eqb_refl.
Qed.

(** X4: the memoized [create_index] called for a temperature, for a second
    one and again for the first: the third call is answered from the cache with
    the first index and does not run the body, so the global [Settings]
    keep the provider of the second build. *)
Theorem cached_create_index_leaves_stale_settings
    (documents : list Document) (t1 t2 : pyval) (s : app_state) :
  create_index_cache s = [] ->
  pyval_eqb t1 t1 = true ->
  pyval_eqb t1 t2 = false ->
  pyval_eqb t2 t1 = false ->
  let builds :=
    sc_app.create_index_cached (Some documents) t1;;
    sc_app.create_index_cached (Some documents) t2;;
    sc_app.create_index_cached (Some documents) t1 in
  eval builds s
    = Some (from_documents documents
              (mkSettings (Some (OpenAI "gpt-4o" t1)) (Some OpenAIEmbedding))) /\
  settings (exec builds s)
    = mkSettings (Some (OpenAI "gpt-4o" t2)) (Some OpenAIEmbedding).
Proof.
  intros Hc H11 H12 H21. cbv zeta.
  destruct s as [ms st sc lc ic]. cbn in Hc. subst ic.
  unfold sc_app.create_index_cached, cache_resource, sc_app.create_index.
  app_unfold. cbn -[pyval_eqb Document_eqb].
  rewrite !Document_list_eqb_refl, H12. cbn -[pyval_eqb Document_eqb].
  rewrite !Document_list_eqb_refl, H21, H11. cbn.
  split; reflexivity.
Qed.

Lemma cached_create_index_leaves_stale_settings_witness :
  let builds :=
    sc_app.create_index_cached (Some corpus0) (PyFloat 0.3);;
    sc_app.create_index_cached (Some corpus0) (PyFloat 0.7);;
    sc_app.create_index_cached (Some corpus0) (PyFloat 0.3) in
  eval builds initial_state
    = Some (from_documents corpus0
              (mkSettings (Some (OpenAI "gpt-4o" (PyFloat 0.3))) (Some OpenAIEmbedding))) /\
  settings (exec builds initial_state)
    = mkSettings (Some (OpenAI "gpt-4o" (PyFloat 0.7))) (Some OpenAIEmbedding).
Proof.
  cbv zeta.
  apply (cached_create_index_leaves_stale_settings corpus0 (PyFloat 0.3) (PyFloat 0.7));
    reflexivity.
Defined.

(** X5: on the first script run (nothing memoized yet) over a corpus that
    loads, [main] builds the index and the "condense_plus_context" engine
    from the same slider value: the engine's own provider and the provider
    stored in [Settings] by the index build have the same temperature. *)
Theorem first_run_engine_and_index_share_temperature
    (w : World) (sb : sidebar) (s : app_state) (d : Document) (ds : list Document) :
  load_documents_cache s = [] ->
  create_index_cache s = [] ->
  load_data w (os_path_join (dirname w) "data") = Returns (d :: ds) ->
  sel_engine_type sb = "condense_plus_context" ->
  let provider := OpenAI "gpt-4o" (PyFloat (slider_temperature sb)) in
  eval (sc_app.build_engine w sb) s
    = Some (as_chat_engine
              (from_documents (d :: ds) (mkSettings (Some provider) (Some OpenAIEmbedding)))
              (mkArgs (Some "condense_plus_context")
                 (Some (from_defaults (PyInt (input_token_limit sb))))
                 (Some provider) None
                 (Some (PyStr (area_context_prompt sb))) (Some true))) /\
  Settings_llm (settings (exec (sc_app.build_engine w sb) s)) = Some provider.
Proof.
  intros Hl Hc Hd Ht. cbv zeta.
  destruct s as [ms st sc lc ic]. cbn in Hl, Hc. subst lc ic.
  destruct sb as [ty t z sp cp]. cbn in Ht. subst ty.
  unfold sc_app.build_engine, sc_app.load_documents_cached,
    sc_app.create_index_cached, cache_resource, sc_app.load_documents,
    sc_app.create_index.
  app_unfold. cbn [cache_lookup]. rewrite Hd.
  app_unfold. cbn [truthy_documents cache_lookup].
  app_unfold.
  unfold sc_app.create_chat_engine, sidebar_config, dict_get.
  cbn [sel_engine_type slider_temperature input_token_limit area_context_prompt
       String.eqb Ascii.eqb Bool.eqb orb].
  simplify_map_eq. split; reflexivity.
Qed.

Lemma first_run_engine_and_index_share_temperature_witness :
  let sb := mkSidebar "condense_plus_context" 0.7 2000 DEFAULT_PROMPT "Use the context." in
  let provider := OpenAI "gpt-4o" (PyFloat 0.7) in
  eval (sc_app.build_engine world_provider_down sb) initial_state
    = Some (as_chat_engine
              (from_documents corpus0 (mkSettings (Some provider) (Some OpenAIEmbedding)))
              (mkArgs (Some "condense_plus_context")
                 (Some (from_defaults (PyInt 2000)))
                 (Some provider) None
                 (Some (PyStr "Use the context.")) (Some true))) /\
  Settings_llm (settings (exec (sc_app.build_engine world_provider_down sb) initial_state))
    = Some provider.
Proof.
  cbv zeta.
  apply (first_run_engine_and_index_share_temperature world_provider_down
           (mkSidebar "condense_plus_context" 0.7 2000 DEFAULT_PROMPT "Use the context.")
           initial_state); reflexivity.
Defined.

(** ** The script run as a whole *)

Lemma exec_bind {A B} (m : App A) (f : A -> App B) (s : app_state) :
  exec (m ≫= f) s = exec (f (eval m s)) (exec m s).
Proof. unfold exec, eval, mbind, App_bind. now destruct (m s). Qed.

Lemma eval_bind {A B} (m : App A) (f : A -> App B) (s : app_state) :
  eval (m ≫= f) s = eval (f (eval m s)) (exec m s).
Proof. unfold exec, eval, mbind, App_bind. now destruct (m s). Qed.

Lemma turns_ok_app l u a :
  turns_ok l -> role u = "user" -> content u <> "" -> role a = "assistant" ->
  turns_ok (l ++ [u; a]).
Proof.
  revert l. fix IH 1. intros [|x [|y l]] H Hu Hc Ha; cbn in *; try easy.
  destruct H as (? & ? & ? & ?). repeat split; try assumption. now apply IH.
Qed.

Lemma cache_lookup_elem {V} key (c : list (list arg * V)) v :
  cache_lookup key c = Some v -> exists k, (k, v) ∈ c.
Proof.
  induction c as [|[k x] c IH]; cbn; [discriminate|].
  destruct (list_eqb arg_eqb k key).
  - intros [= ->]. exists k. left.
  - intros H. destruct (IH H) as [k' Hk]. exists k'. now right.
Qed.

(** A memoized build that returned [None] contradicts [index_inv]. *)
Ltac stale_index_entry :=
  match goal with
  | H : cache_lookup _ ?c = Some None, Hc : Forall _ ?c |- _ =>
      let Hin := fresh in
      destruct (cache_lookup_elem _ _ _ H) as [? Hin];
      rewrite Forall_forall in Hc; destruct (Hc _ Hin) as [? ?]; discriminate
  end.

Ltac inv_solver :=
  try stale_index_entry;
  unfold history_inv, index_inv; cbn [messages screen create_index_cache];
  repeat split; try assumption;
  rewrite ?not_elem_of_app, ?not_elem_of_cons, ?Forall_cons;
  repeat split; try assumption; try (cbn; eauto; fail);
  try (intros ?; discriminate); try apply not_elem_of_nil.

Ltac turn_appended :=
  rewrite <- app_assoc; apply turns_ok_app;
  [assumption | reflexivity | now apply String.eqb_neq | reflexivity].

(** Runs a monadic definition through all of its branches. *)
Ltac app_cases := repeat (case_match; app_unfold; simplify_eq/=).

Lemma display_messages_run l s :
  run (sc_app.display_messages l) s
  = (tt, mkState (messages s) (settings s)
           (screen s ++ map (fun m => st_chat_message (role m) (content m)) l)
           (load_documents_cache s) (create_index_cache s)) /\
  run (sc_bedrock_app.display_messages l) s = run (sc_app.display_messages l) s.
Proof.
  revert s. induction l as [|m l IH]; intros s.
  - destruct s; cbn. now rewrite app_nil_r.
  - cbn [sc_app.display_messages sc_bedrock_app.display_messages].
    unfold run in *. unfold mbind, App_bind, render.
    destruct (IH (mkState (messages s) (settings s)
                    (screen s ++ [st_chat_message (role m) (content m)])
                    (load_documents_cache s) (create_index_cache s))) as [E1 E2].
    rewrite E2, E1. cbn. now rewrite <- app_assoc.
Qed.

(** X6: the history loop renders every stored message, oldest first, as a
    chat message with its role and text, and changes nothing else. *)
Theorem display_messages_renders_history (l : list message) (s : app_state) :
  let shown :=
    mkState (messages s) (settings s)
            (screen s ++ map (fun m => st_chat_message (role m) (content m)) l)
            (load_documents_cache s) (create_index_cache s) in
  run (sc_app.display_messages l) s = (tt, shown) /\
  run (sc_bedrock_app.display_messages l) s = (tt, shown).
Proof.
  cbv zeta. destruct (display_messages_run l s) as [E1 E2].
  rewrite E2, E1. split; reflexivity.
Qed.

Lemma build_engine_messages w p sb s :
  messages (exec (sc_app.build_engine w sb) s) = messages s /\
  messages (exec (sc_bedrock_app.build_engine w p sb) s) = messages s.
Proof.
  destruct s as [ms st sc lc ic].
  unfold sc_app.build_engine, sc_app.load_documents_cached, sc_app.create_index_cached,
    sc_bedrock_app.build_engine, sc_bedrock_app.load_documents_cached,
    sc_bedrock_app.create_index_cached,
    cache_resource, sc_app.load_documents, sc_app.create_index,
    sc_bedrock_app.load_documents, sc_bedrock_app.create_index.
  app_unfold. split; app_cases; reflexivity.
Qed.

(** *** Invariants of a script run, part by part *)

Lemma build_engine_history w p sb s :
  history_inv s ->
  history_inv (exec (sc_app.build_engine w sb) s) /\
  history_inv (exec (sc_bedrock_app.build_engine w p sb) s).
Proof.
  unfold history_inv. destruct (build_engine_messages w p sb s) as [-> ->]. auto.
Qed.

Lemma build_engine_index w p sb s :
  index_inv s ->
  index_inv (exec (sc_app.build_engine w sb) s) /\
  index_inv (exec (sc_bedrock_app.build_engine w p sb) s).
Proof.
  intros (Hc & Hs). destruct s as [ms st sc lc ic]; cbn in *.
  unfold sc_app.build_engine, sc_app.load_documents_cached, sc_app.create_index_cached,
    sc_bedrock_app.build_engine, sc_bedrock_app.load_documents_cached,
    sc_bedrock_app.create_index_cached,
    cache_resource, sc_app.load_documents, sc_app.create_index,
    sc_bedrock_app.load_documents, sc_bedrock_app.create_index.
  app_unfold. split; app_cases; inv_solver.
Qed.

Lemma chat_turn_history w e ci s :
  history_inv s ->
  history_inv (exec (sc_app.chat_turn w e ci) s) /\
  history_inv (exec (sc_bedrock_app.chat_turn w e ci) s).
Proof.
  unfold history_inv. intros Ht. destruct s as [ms st sc lc ic]; cbn in *.
  unfold sc_app.chat_turn, sc_bedrock_app.chat_turn.
  split; app_cases; inv_solver; turn_appended.
Qed.

Lemma chat_turn_index w e ci s :
  index_inv s ->
  index_inv (exec (sc_app.chat_turn w e ci) s) /\
  index_inv (exec (sc_bedrock_app.chat_turn w e ci) s).
Proof.
  intros (Hc & Hs). destruct s as [ms st sc lc ic]; cbn in *.
  unfold sc_app.chat_turn, sc_bedrock_app.chat_turn.
  split; app_cases; inv_solver.
Qed.

Lemma display_messages_invs l s :
  (history_inv s -> history_inv (exec (sc_app.display_messages l) s)) /\
  (history_inv s -> history_inv (exec (sc_bedrock_app.display_messages l) s)) /\
  (index_inv s -> index_inv (exec (sc_app.display_messages l) s)) /\
  (index_inv s -> index_inv (exec (sc_bedrock_app.display_messages l) s)).
Proof.
  unfold exec. destruct (display_messages_run l s) as [E1 E2].
  unfold run in E1, E2. rewrite E2, E1. cbn [snd].
  assert (I : index_inv s ->
              index_inv (mkState (messages s) (settings s)
                (screen s ++ map (fun m => st_chat_message (role m) (content m)) l)
                (load_documents_cache s) (create_index_cache s))).
  { intros (Hc & Hs). inv_solver.
    change (map ?f ?l) with (f <$> l).
    intros H. apply list_elem_of_fmap in H as (m & Hm & _). discriminate. }
  split; [|split; [|split]]; auto.
Qed.

Lemma messages_clear_invs s :
  history_inv (exec messages_clear s) /\
  (index_inv s -> index_inv (exec messages_clear s)).
Proof. split; [exact I|]. intros (Hc & Hs). app_unfold. inv_solver. Qed.

Lemma display_messages_history l s :
  history_inv s ->
  history_inv (exec (sc_app.display_messages l) s) /\
  history_inv (exec (sc_bedrock_app.display_messages l) s).
Proof. destruct (display_messages_invs l s) as (? & ? & _). auto. Qed.

Lemma display_messages_index l s :
  index_inv s ->
  index_inv (exec (sc_app.display_messages l) s) /\
  index_inv (exec (sc_bedrock_app.display_messages l) s).
Proof. destruct (display_messages_invs l s) as (_ & _ & ? & ?). auto. Qed.

Lemma messages_clear_history s :
  history_inv s -> history_inv (exec messages_clear s).
Proof. intros _. apply messages_clear_invs. Qed.

Lemma messages_clear_index s :
  index_inv s -> index_inv (exec messages_clear s).
Proof. apply messages_clear_invs. Qed.

(** *** From the parts to a run, and from a run to a session *)

(** The state a run of [main] ends in, and what it returns, step by step. *)
Lemma main_run w sb ci cl s :
  let s1 := exec (sc_app.build_engine w sb) s in
  run (sc_app.main w sb ci cl) s =
  match eval (sc_app.build_engine w sb) s with
  | None => (false, s1)
  | Some e =>
      let s2 := exec (sc_app.display_messages (messages s1)) s1 in
      let s3 := exec (sc_app.chat_turn w e ci) s2 in
      if cl then (true, exec messages_clear s3) else (false, s3)
  end.
Proof.
  cbv zeta. unfold sc_app.main, run, exec, eval, mbind, mret, App_bind, App_ret, get_state.
  destruct (sc_app.build_engine w sb s) as [[e|] s1]; cbn [fst snd]; [|reflexivity].
  destruct (sc_app.display_messages (messages s1) s1) as [[] s2]; cbn [fst snd].
  destruct (sc_app.chat_turn w e ci s2) as [[] s3]; cbn [fst snd].
  destruct cl; reflexivity.
Qed.

Lemma bedrock_main_run w p sb ci cl s :
  let s1 := exec (sc_bedrock_app.build_engine w p sb) s in
  run (sc_bedrock_app.main w p sb ci cl) s =
  match eval (sc_bedrock_app.build_engine w p sb) s with
  | None => (false, s1)
  | Some e =>
      let s2 := exec (sc_bedrock_app.display_messages (messages s1)) s1 in
      let s3 := exec (sc_bedrock_app.chat_turn w e ci) s2 in
      if cl then (true, exec messages_clear s3) else (false, s3)
  end.
Proof.
  cbv zeta.
  unfold sc_bedrock_app.main, run, exec, eval, mbind, mret, App_bind, App_ret, get_state.
  destruct (sc_bedrock_app.build_engine w p sb s) as [[e|] s1]; cbn [fst snd];
    [|reflexivity].
  destruct (sc_bedrock_app.display_messages (messages s1) s1) as [[] s2]; cbn [fst snd].
  destruct (sc_bedrock_app.chat_turn w e ci s2) as [[] s3]; cbn [fst snd].
  destruct cl; reflexivity.
Qed.

Section run_invariant.

Variable P : app_state -> Prop.

Hypothesis P_build : forall w p sb s, P s ->
  P (exec (sc_app.build_engine w sb) s) /\
  P (exec (sc_bedrock_app.build_engine w p sb) s).
Hypothesis P_display : forall l s, P s ->
  P (exec (sc_app.display_messages l) s) /\
  P (exec (sc_bedrock_app.display_messages l) s).
Hypothesis P_turn : forall w e ci s, P s ->
  P (exec (sc_app.chat_turn w e ci) s) /\
  P (exec (sc_bedrock_app.chat_turn w e ci) s).
Hypothesis P_clear : forall s, P s -> P (exec messages_clear s).

Lemma main_preserves w p sb ci cl s :
  P s ->
  P (exec (sc_app.main w sb ci cl) s) /\
  P (exec (sc_bedrock_app.main w p sb ci cl) s).
Proof.
  intros H. destruct (P_build w p sb s H) as [H1 H2]. split.
  - unfold exec at 1. pose proof (main_run w sb ci cl s) as E.
    unfold run in E. rewrite E. clear E. cbv zeta.
    destruct (eval (sc_app.build_engine w sb) s) as [e|]; [|exact H1].
    destruct (P_display (messages (exec (sc_app.build_engine w sb) s)) _ H1)
      as [H3 _].
    destruct (P_turn w e ci _ H3) as [H4 _].
    destruct cl; [|exact H4]. now apply P_clear.
  - unfold exec at 1. pose proof (bedrock_main_run w p sb ci cl s) as E.
    unfold run in E. rewrite E. clear E. cbv zeta.
    destruct (eval (sc_bedrock_app.build_engine w p sb) s) as [e|]; [|exact H2].
    destruct (P_display (messages (exec (sc_bedrock_app.build_engine w p sb) s)) _ H2)
      as [_ H3].
    destruct (P_turn w e ci _ H3) as [_ H4].
    destruct cl; [|exact H4]. now apply P_clear.
Qed.

Lemma session_preserves runs s :
  P s -> P (exec (sc_app.session runs) s).
Proof.
  revert s. induction runs as [|r runs IH]; intros s H; [exact H|].
  cbn [sc_app.session]. rewrite !exec_bind. apply IH.
  destruct (main_preserves (i_world r) "" (i_sidebar r) (i_chat_input r) (i_clear r) s H)
    as [H1 _].
  destruct (eval _ s); [|exact H1].
  rewrite exec_bind.
  now destruct (main_preserves (i_world r) "" (i_sidebar r) None false _ H1) as [H2 _].
Qed.

Lemma bedrock_session_preserves runs s :
  P s -> P (exec (sc_bedrock_app.session runs) s).
Proof.
  revert s. induction runs as [|[p r] runs IH]; intros s H; [exact H|].
  cbn [sc_bedrock_app.session]. rewrite !exec_bind. apply IH.
  destruct (main_preserves (i_world r) p (i_sidebar r) (i_chat_input r) (i_clear r) s H)
    as [_ H1].
  destruct (eval _ s); [|exact H1].
  rewrite exec_bind.
  now destruct (main_preserves (i_world r) p (i_sidebar r) None false _ H1) as [_ H2].
Qed.

End run_invariant.

(** X7: over any session of either program, whatever the inputs of its
    runs, a history made of whole turns stays so: every user message has a
    non-empty text and is directly followed by one assistant message (the
    answer or the error text). *)
Theorem session_history_is_whole_turns
    (runs : list interaction) (bedrock_runs : list (string * interaction))
    (s : app_state) :
  turns_ok (messages s) ->
  turns_ok (messages (exec (sc_app.session runs) s)) /\
  turns_ok (messages (exec (sc_bedrock_app.session bedrock_runs) s)).
Proof.
  intros H. split.
  - exact (session_preserves history_inv build_engine_history display_messages_history
             chat_turn_history messages_clear_history runs s H).
  - exact (bedrock_session_preserves history_inv build_engine_history
             display_messages_history chat_turn_history messages_clear_history
             bedrock_runs s H).
Qed.

Lemma session_history_is_whole_turns_witness :
  turns_ok (messages (exec (sc_app.session [interaction0; interaction0]) state_two_turns)) /\
  turns_ok (messages (exec (sc_bedrock_app.session [("/srv/app/data", interaction0)])
                           state_two_turns)).
Proof.
  apply (session_history_is_whole_turns _ _ state_two_turns).
  cbn. repeat split; discriminate.
Defined.

(** X8: the branch of [main] that reports "Failed to create index" is
    never taken: in a process whose memoized index builds all returned an
    index (as at start-up, when there are none), no run of either program
    renders that error, whatever the worlds and inputs. *)
Theorem failed_to_create_index_never_shown
    (runs : list interaction) (bedrock_runs : list (string * interaction))
    (s : app_state) :
  Forall (fun kv => is_Some (snd kv)) (create_index_cache s) ->
  st_error "Failed to create index" ∉ screen s ->
  (st_error "Failed to create index" ∉ screen (exec (sc_app.session runs) s)) /\
  (st_error "Failed to create index"
     ∉ screen (exec (sc_bedrock_app.session bedrock_runs) s)).
Proof.
  intros Hc Hs. assert (H : index_inv s) by (split; assumption). split.
  - exact (proj2 (session_preserves index_inv build_engine_index display_messages_index
                    chat_turn_index messages_clear_index runs s H)).
  - exact (proj2 (bedrock_session_preserves index_inv build_engine_index
                    display_messages_index chat_turn_index messages_clear_index
                    bedrock_runs s H)).
Qed.

Lemma failed_to_create_index_never_shown_witness :
  (st_error "Failed to create index"
     ∉ screen (exec (sc_app.session [interaction0; interaction0]) initial_state)) /\
  (st_error "Failed to create index"
     ∉ screen (exec (sc_bedrock_app.session [("/srv/app/data", interaction0)])
                    initial_state)).
Proof.
  apply (failed_to_create_index_never_shown _ _ initial_state).
  - constructor.
  - apply not_elem_of_nil.
Defined.

(** X9: the "Clear Chat History" button is read only after the engine was
    built.  In a run where it is pressed, the history ends empty and a
    rerun is requested if an engine was built, whatever was asked in that
    run; if loading failed, the run ends before the button and the history
    is left as it was. *)
Theorem clear_button_needs_an_engine
    (w : World) (data_path : string) (sb : sidebar) (chat_input : option string)
    (s : app_state) :
  match eval (sc_app.build_engine w sb) s with
  | Some _ =>
      eval (sc_app.main w sb chat_input true) s = true /\
      messages (exec (sc_app.main w sb chat_input true) s) = []
  | None =>
      eval (sc_app.main w sb chat_input true) s = false /\
      messages (exec (sc_app.main w sb chat_input true) s) = messages s
  end /\
  match eval (sc_bedrock_app.build_engine w data_path sb) s with
  | Some _ =>
      eval (sc_bedrock_app.main w data_path sb chat_input true) s = true /\
      messages (exec (sc_bedrock_app.main w data_path sb chat_input true) s) = []
  | None =>
      eval (sc_bedrock_app.main w data_path sb chat_input true) s = false /\
      messages (exec (sc_bedrock_app.main w data_path sb chat_input true) s) = messages s
  end.
Proof.
  pose proof (main_run w sb chat_input true s) as E1.
  pose proof (bedrock_main_run w data_path sb chat_input true s) as E2.
  destruct (build_engine_messages w data_path sb s) as [M1 M2].
  cbv zeta in E1, E2.
  change (eval (sc_app.main w sb chat_input true) s)
    with (fst (run (sc_app.main w sb chat_input true) s)).
  change (exec (sc_app.main w sb chat_input true) s)
    with (snd (run (sc_app.main w sb chat_input true) s)).
  change (eval (sc_bedrock_app.main w data_path sb chat_input true) s)
    with (fst (run (sc_bedrock_app.main w data_path sb chat_input true) s)).
  change (exec (sc_bedrock_app.main w data_path sb chat_input true) s)
    with (snd (run (sc_bedrock_app.main w data_path sb chat_input true) s)).
  rewrite E1, E2. clear E1 E2.
  split.
  - destruct (eval (sc_app.build_engine w sb) s); cbn [fst snd]; auto.
  - destruct (eval (sc_bedrock_app.build_engine w data_path sb) s); cbn [fst snd]; auto.
Qed.

(** With a history of two turns: the button clears it when the corpus
    loads, and does nothing when it does not. *)
Example clear_button_examples :
  messages (exec (sc_app.main world_provider_down sidebar0 None true) state_two_turns)
    = [] /\
  messages (exec (sc_app.main world_no_documents sidebar0 None true) state_two_turns)
    = messages state_two_turns.
Proof. split; vm_compute; reflexivity. Qed.

Lemma list_eqb_arg_refl_str (p : string) :
  list_eqb arg_eqb [ArgStr p] [ArgStr p] = true.
Proof. cbn. now rewrite String.eqb_refl. Qed.

(** X10: documents are loaded once per key.  After a first call of the
    memoized loader, a later call (in [sc_bedrock_app]: for the same path)
    returns what the first one returned, whatever the data directory has
    become in the meantime, and changes neither the history, nor
    [Settings], nor what is memoized; that includes a first call that
    failed.  (What the later call renders is not stated.) *)
Theorem load_documents_is_memoized
    (w w' : World) (data_path : string) (s : app_state) :
  let s1 := exec (sc_app.load_documents_cached w) s in
  let s1' := exec (sc_app.load_documents_cached w') s1 in
  let s2 := exec (sc_bedrock_app.load_documents_cached w data_path) s in
  let s2' := exec (sc_bedrock_app.load_documents_cached w' data_path) s2 in
  (eval (sc_app.load_documents_cached w') s1 = eval (sc_app.load_documents_cached w) s /\
   messages s1' = messages s1 /\
   settings s1' = settings s1 /\
   load_documents_cache s1' = load_documents_cache s1 /\
   create_index_cache s1' = create_index_cache s1) /\
  (eval (sc_bedrock_app.load_documents_cached w' data_path) s2
     = eval (sc_bedrock_app.load_documents_cached w data_path) s /\
   messages s2' = messages s2 /\
   settings s2' = settings s2 /\
   load_documents_cache s2' = load_documents_cache s2 /\
   create_index_cache s2' = create_index_cache s2).
Proof.
  cbv zeta. destruct s as [ms st sc lc ic].
  pose proof (list_eqb_arg_refl_str data_path) as R.
  unfold sc_app.load_documents_cached, sc_bedrock_app.load_documents_cached,
    cache_resource, sc_app.load_documents, sc_bedrock_app.load_documents.
  app_unfold. split.
  - destruct (cache_lookup [] lc) eqn:E; app_unfold;
      [rewrite E; repeat split|].
    app_cases; repeat split.
  - destruct (cache_lookup [ArgStr data_path] lc) eqn:E; app_unfold;
      [rewrite E; repeat split|].
    app_cases; cbn [cache_lookup]; rewrite ?R; repeat split.
Qed.

(** A corpus that appears after a failed first load is not seen. *)
Example failed_load_is_kept :
  eval (sc_app.load_documents_cached world_no_documents;;
        sc_app.load_documents_cached world_provider_down) initial_state
    = Some [] /\
  eval (sc_bedrock_app.load_documents_cached world_no_documents "/srv/app/data";;
        sc_bedrock_app.load_documents_cached world_provider_down "/srv/app/data")
       initial_state
    = None.
Proof. split; reflexivity. Qed.

(** X11: every option the factory reads for the selected strategy is in
    the configuration [main] builds, so the engine is made of the widget
    values as they are (an emptied text area gives an empty prompt) and the
    factory's own defaults are not used. *)
Theorem widget_values_reach_the_engine
    (index : VectorStoreIndex) (t : float) (z : Z) (sp cp : string) :
  let sb ty := mkSidebar ty t z sp cp in
  let memory := Some (from_defaults (PyInt z)) in
  let context :=
    mkArgs (Some "context") memory None (Some (PyStr sp)) None None in
  let hybrid provider :=
    mkArgs (Some "condense_plus_context") memory (Some provider) None
           (Some (PyStr cp)) (Some true) in
  let condense :=
    mkArgs (Some "condense_question") None None None None (Some true) in
  sc_app.create_chat_engine (Some index) "context" (sidebar_config (sb "context"))
    = Some (as_chat_engine index context) /\
  sc_app.create_chat_engine (Some index) "condense_plus_context"
      (sidebar_config (sb "condense_plus_context"))
    = Some (as_chat_engine index (hybrid (OpenAI "gpt-4o" (PyFloat t)))) /\
  sc_app.create_chat_engine (Some index) "condense_question"
      (sidebar_config (sb "condense_question"))
    = Some (as_chat_engine index condense) /\
  sc_bedrock_app.create_chat_engine (Some index) "context" (sidebar_config (sb "context"))
    = Some (as_chat_engine index context) /\
  sc_bedrock_app.create_chat_engine (Some index) "condense_plus_context"
      (sidebar_config (sb "condense_plus_context"))
    = Some (as_chat_engine index
              (hybrid (BedrockConverse "amazon.nova-pro-v1:0" (PyFloat t) 3000))) /\
  sc_bedrock_app.create_chat_engine (Some index) "condense_question"
      (sidebar_config (sb "condense_question"))
    = Some (as_chat_engine index condense).
Proof.
  cbv zeta.
  unfold sc_app.create_chat_engine, sc_bedrock_app.create_chat_engine, sidebar_config,
    dict_get.
  cbn [sel_engine_type slider_temperature input_token_limit area_system_prompt
       area_context_prompt String.eqb Ascii.eqb Bool.eqb orb].
  repeat split; now simplify_map_eq.
Qed.

(** X18: a run whose documents cannot be loaded, with nothing memoized for
    them yet, renders the loader's error and "Failed to load documents" and
    stops: a prompt typed in that run is not recorded, the clear button is
    not read, [Settings] and the index cache are untouched, and the failure
    itself is memoized.  In [sc_app] this is a run in which the reader
    raises; in [sc_bedrock_app] one whose data path does not exist. *)
Theorem failed_load_stops_the_run
    (sb : sidebar) (chat_input : option string) (clear_button : bool) (s : app_state) :
  (forall (w : World) (e : string),
     load_data w (os_path_join (dirname w) "data") = Raises e ->
     cache_lookup [] (load_documents_cache s) = None ->
     run (sc_app.main w sb chat_input clear_button) s
       = (false,
          mkState (messages s) (settings s)
            (screen s ++ [st_error ("Error loading documents: " +:+ e);
                          st_error "Failed to load documents"])
            (([], None) :: load_documents_cache s) (create_index_cache s))) /\
  (forall (w : World) (data_path : string),
     path_exists w data_path = false ->
     cache_lookup [ArgStr data_path] (load_documents_cache s) = None ->
     run (sc_bedrock_app.main w data_path sb chat_input clear_button) s
       = (false,
          mkState (messages s) (settings s)
            (screen s ++ [st_error ("Data path does not exist: " +:+ data_path);
                          st_error "Failed to load documents"])
            (([ArgStr data_path], None) :: load_documents_cache s)
            (create_index_cache s))).
Proof.
  destruct s as [ms st sc lc ic]. split.
  - intros w e Hl H1. cbn in H1.
    unfold sc_app.main, sc_app.build_engine, sc_app.load_documents_cached,
      cache_resource, sc_app.load_documents.
    app_unfold. rewrite H1, Hl. app_unfold. cbn [truthy_documents].
    app_unfold. now rewrite <- !app_assoc.
  - intros w data_path Hp H2. cbn in H2.
    unfold sc_bedrock_app.main, sc_bedrock_app.build_engine,
      sc_bedrock_app.load_documents_cached, cache_resource,
      sc_bedrock_app.load_documents.
    app_unfold. rewrite H2, Hp. app_unfold. cbn [negb truthy_documents].
    app_unfold. now rewrite <- !app_assoc.
Qed.

Lemma failed_load_stops_the_run_witness :
  let reader_raises :=
    mkWorld "/srv/app" (fun _ => true) (fun _ => Raises "No such directory")
            (fun _ _ => Returns "ok") in
  let custom_path_missing :=
    mkWorld "/srv/app" (fun p => String.eqb p "/srv/app/data") (fun _ => Returns corpus0)
            (fun _ _ => Returns "ok") in
  run (sc_app.main reader_raises sidebar0 (Some "Hello") true) state_two_turns
    = (false,
       mkState (messages state_two_turns) (settings state_two_turns)
         (screen state_two_turns ++
            [st_error ("Error loading documents: " +:+ "No such directory");
             st_error "Failed to load documents"])
         (([], None) :: load_documents_cache state_two_turns)
         (create_index_cache state_two_turns)) /\
  run (sc_bedrock_app.main custom_path_missing "/srv/docs" sidebar0 (Some "Hello") true)
      state_two_turns
    = (false,
       mkState (messages state_two_turns) (settings state_two_turns)
         (screen state_two_turns ++
            [st_error ("Data path does not exist: " +:+ "/srv/docs");
             st_error "Failed to load documents"])
         (([ArgStr "/srv/docs"], None) :: load_documents_cache state_two_turns)
         (create_index_cache state_two_turns)).
Proof.
  cbv zeta.
  destruct (failed_load_stops_the_run sidebar0 (Some "Hello") true state_two_turns)
    as [A B].
  split.
  - apply (A (mkWorld "/srv/app" (fun _ => true) (fun _ => Raises "No such directory")
                      (fun _ _ => Returns "ok")) "No such directory"); reflexivity.
  - apply (B (mkWorld "/srv/app" (fun p => String.eqb p "/srv/app/data")
                      (fun _ => Returns corpus0) (fun _ _ => Returns "ok")) "/srv/docs");
      reflexivity.
Defined.

Lemma display_messages_exec l s1 :
  exec (sc_app.display_messages l) s1
    = mkState (messages s1) (settings s1)
        (screen s1 ++ map (fun m => st_chat_message (role m) (content m)) l)
        (load_documents_cache s1) (create_index_cache s1) /\
  exec (sc_bedrock_app.display_messages l) s1 = exec (sc_app.display_messages l) s1.
Proof.
  unfold exec. destruct (display_messages_run l s1) as [E1 E2].
  unfold run in E1, E2. now rewrite E2, E1.
Qed.

(** X19: in either program, a run with an engine and an answered prompt
    renders the stored history first, each message once and in order, then
    the new question and its answer, and stores exactly these two messages
    after the old ones; the rest of the state is as the engine build left
    it. *)
Theorem answered_run_extends_history (sb : sidebar) (s : app_state) :
  (forall (w : World) (e : ChatEngine) (prompt response_text : string),
     prompt <> "" ->
     eval (sc_app.build_engine w sb) s = Some e ->
     chat w e prompt = Returns response_text ->
     run (sc_app.main w sb (Some prompt) false) s
       = (false,
          after_answer s (exec (sc_app.build_engine w sb) s) prompt response_text)) /\
  (forall (w : World) (data_path : string) (e : ChatEngine)
          (prompt response_text : string),
     prompt <> "" ->
     eval (sc_bedrock_app.build_engine w data_path sb) s = Some e ->
     chat w e prompt = Returns response_text ->
     run (sc_bedrock_app.main w data_path sb (Some prompt) false) s
       = (false,
          after_answer s (exec (sc_bedrock_app.build_engine w data_path sb) s)
                       prompt response_text)).
Proof.
  unfold after_answer. split.
  - intros w e prompt response_text Hp%String.eqb_neq He Hc.
    rewrite main_run. cbv zeta. rewrite He.
    destruct (build_engine_messages w "" sb s) as [M _].
    set (s1 := exec (sc_app.build_engine w sb) s) in *.
    destruct (display_messages_exec (messages s1) s1) as [-> _].
    unfold sc_app.chat_turn. rewrite Hp, Hc. app_unfold.
    now rewrite M, <- !app_assoc.
  - intros w data_path e prompt response_text Hp%String.eqb_neq He Hc.
    rewrite bedrock_main_run. cbv zeta. rewrite He.
    destruct (build_engine_messages w data_path sb s) as [_ M].
    set (s1 := exec (sc_bedrock_app.build_engine w data_path sb) s) in *.
    destruct (display_messages_exec (messages s1) s1) as [E ->]. rewrite E.
    unfold sc_bedrock_app.chat_turn. rewrite Hp, Hc. app_unfold.
    now rewrite M, <- !app_assoc.
Qed.

Lemma answered_run_extends_history_witness :
  let openai_world :=
    mkWorld "/srv/app" (fun _ => true) (fun _ => Returns corpus0)
            (fun _ _ => Returns "In 1879.") in
  let bedrock_world :=
    mkWorld "/srv/app" (fun _ => true) (fun _ => Returns corpus0)
            (fun _ _ => Returns "Albert was born in 1879.") in
  run (sc_app.main openai_world sidebar0 (Some "When was Albert born?") false)
      state_two_turns
    = (false,
       after_answer state_two_turns
         (exec (sc_app.build_engine openai_world sidebar0) state_two_turns)
         "When was Albert born?" "In 1879.") /\
  run (sc_bedrock_app.main bedrock_world "/srv/app/data" sidebar0
         (Some "When was Albert born?") false) state_two_turns
    = (false,
       after_answer state_two_turns
         (exec (sc_bedrock_app.build_engine bedrock_world "/srv/app/data" sidebar0)
               state_two_turns)
         "When was Albert born?" "Albert was born in 1879.").
Proof.
  cbv zeta.
  destruct (answered_run_extends_history sidebar0 state_two_turns) as [A B].
  split.
  - eapply A; [discriminate | reflexivity | reflexivity].
  - eapply B; [discriminate | reflexivity | reflexivity].
Defined.

(** ** The sidebar of [sc_bedrock_app] *)

(** *** The file statistics *)

Lemma dict_count_get_count key key' d :
  dict_count_get key (dict_count key' d)
  = (dict_count_get key d + if String.eqb key' key then 1 else 0)%nat.
Proof.
  induction d as [|[k n] d IH]; cbn.
  - destruct (String.eqb key' key); reflexivity.
  - destruct (String.eqb k key') eqn:E1; cbn.
    + apply String.eqb_eq in E1 as ->.
      destruct (String.eqb key' key); lia.
    + destruct (String.eqb k key) eqn:E2; [|exact IH].
      apply String.eqb_eq in E2 as ->.
      rewrite String.eqb_sym, E1. lia.
Qed.

Lemma dict_count_keys key d :
  map fst (dict_count key d)
  = if decide (key ∈ map fst d) then map fst d else map fst d ++ [key].
Proof.
  induction d as [|[k n] d IH]; cbn.
  - rewrite decide_False; [reflexivity | apply not_elem_of_nil].
  - destruct (String.eqb k key) eqn:E; cbn.
    + apply String.eqb_eq in E as ->.
      rewrite decide_True; [reflexivity | left].
    + apply String.eqb_neq in E. rewrite IH.
      destruct (decide (key ∈ map fst d)) as [Hin|Hin].
      * rewrite decide_True; [reflexivity | now right].
      * rewrite decide_False; [reflexivity|].
        intros [->|H]%elem_of_cons; [now apply E | now apply Hin].
Qed.

Lemma dict_count_NoDup key d :
  NoDup (map fst d) -> NoDup (map fst (dict_count key d)).
Proof.
  intros Hd. rewrite dict_count_keys.
  destruct (decide (key ∈ map fst d)) as [Hin|Hin]; [exact Hd|].
  apply NoDup_app. split; [exact Hd|]. split.
  - intros x Hx [->|H]%elem_of_cons; [now apply Hin | now apply not_elem_of_nil in H].
  - apply NoDup_singleton.
Qed.

Lemma dict_count_sum key d :
  sum_list (map snd (dict_count key d)) = S (sum_list (map snd d)).
Proof.
  induction d as [|[k n] d IH]; cbn; [reflexivity|].
  destruct (String.eqb k key); cbn; lia.
Qed.

Lemma dict_count_positive key d :
  Forall (fun kv => (1 <= snd kv)%nat) d ->
  Forall (fun kv => (1 <= snd kv)%nat) (dict_count key d).
Proof.
  induction 1 as [|[k n] d Hn Hd IH]; cbn; [repeat constructor|].
  destruct (String.eqb k key); constructor; cbn in *; auto; lia.
Qed.

Lemma file_types_fold files d ext :
  NoDup (map fst d) ->
  Forall (fun kv => (1 <= snd kv)%nat) d ->
  let d' := fold_left (fun d f => dict_count (sc_bedrock_app.file_ext f) d) files d in
  dict_count_get ext d' = (dict_count_get ext d + ext_count ext files)%nat /\
  sum_list (map snd d') = (sum_list (map snd d) + length files)%nat /\
  NoDup (map fst d') /\
  Forall (fun kv => (1 <= snd kv)%nat) d'.
Proof.
  cbv zeta. revert d. induction files as [|f files IH]; intros d Hd Hp;
    cbn [fold_left length].
  - unfold ext_count. cbn. repeat split; auto; lia.
  - destruct (IH (dict_count (sc_bedrock_app.file_ext f) d)) as (E1 & E2 & E3 & E4).
    { now apply dict_count_NoDup. } { now apply dict_count_positive. }
    rewrite E1, E2, dict_count_get_count, dict_count_sum.
    split; [|split; [lia|split; assumption]].
    unfold ext_count. rewrite filter_cons.
    destruct (String.eqb (sc_bedrock_app.file_ext f) ext) eqn:E.
    + apply String.eqb_eq in E. rewrite decide_True by exact E. cbn. lia.
    + apply String.eqb_neq in E. rewrite decide_False by exact E. lia.
Qed.

(** X12: the "File Types" dictionary counts the uploads by extension: the
    entry of an extension is the number of uploaded files with it, the
    counts add up to the number of uploaded files, no extension is listed
    twice and none with a count of zero. *)
Theorem file_types_counts_by_extension (uploaded_files : list UploadedFile) (ext : string) :
  let file_types := sc_bedrock_app.file_types uploaded_files in
  dict_count_get ext file_types = ext_count ext uploaded_files /\
  sum_list (map snd file_types) = length uploaded_files /\
  NoDup (map fst file_types) /\
  Forall (fun kv => (1 <= snd kv)%nat) file_types.
Proof.
  cbv zeta. unfold sc_bedrock_app.file_types.
  destruct (file_types_fold uploaded_files [] ext) as (E1 & E2 & E3 & E4);
    [constructor | constructor |].
  rewrite E1, E2. repeat split; assumption.
Qed.

(** Upper-case extensions are counted with the lower-case ones, and the
    lines show them in upper case, in the order of first appearance. *)
Example file_types_example :
  sc_bedrock_app.file_types uploads0 = [("txt", 2%nat); ("pdf", 1%nat)] /\
  sc_bedrock_app.file_types_lines uploads0 = ["📄 TXT: 2"; "📄 PDF: 1"].
Proof. split; reflexivity. Qed.

Lemma str_split_nonempty sep s : str_split sep s <> [].
Proof.
  destruct s as [|c s]; cbn [str_split]; [discriminate|].
  destruct (Ascii.eqb c sep); [discriminate|].
  destruct (str_split sep s); discriminate.
Qed.

Lemma str_split_no_sep sep s : has_char sep s = false -> str_split sep s = [s].
Proof.
  induction s as [|c s IH]; cbn [has_char str_split]; [reflexivity|].
  intros [E1 E2]%orb_false_iff. rewrite E1, (IH E2). reflexivity.
Qed.

Lemma str_split_app sep a b :
  str_split sep (a +:+ String sep b) = str_split sep a ++ str_split sep b.
Proof.
  induction a as [|c a IH].
  - change (str_split sep (String sep b) = [""] ++ str_split sep b).
    cbn [str_split]. now rewrite Ascii.eqb_refl.
  - change (String c a +:+ String sep b) with (String c (a +:+ String sep b)).
    cbn [str_split]. rewrite IH.
    destruct (Ascii.eqb c sep); [reflexivity|].
    pose proof (str_split_nonempty sep a).
    destruct (str_split sep a); [congruence|reflexivity].
Qed.

Lemma str_last_split_app sep a b :
  str_last (str_split sep (a +:+ String sep b)) = str_last (str_split sep b).
Proof.
  unfold str_last. rewrite str_split_app, last_app.
  pose proof (str_split_nonempty sep b).
  destruct (last (str_split sep b)) eqn:E; [reflexivity|].
  apply last_None in E. congruence.
Qed.

(** X13: the extension of an upload is the lower-cased text after the last
    dot of its name; a name without a dot is its own extension. *)
Theorem file_ext_after_last_dot (stem ext bytes : string) :
  has_char "." ext = false ->
  sc_bedrock_app.file_ext (mkUpload (stem +:+ "." +:+ ext) bytes) = str_lower ext /\
  sc_bedrock_app.file_ext (mkUpload ext bytes) = str_lower ext.
Proof.
  intros H. unfold sc_bedrock_app.file_ext. cbn [upload_name].
  change ("." +:+ ext) with (String "." ext).
  rewrite str_last_split_app, (str_split_no_sep _ _ H). split; reflexivity.
Qed.

Lemma file_ext_after_last_dot_witness :
  sc_bedrock_app.file_ext (mkUpload ("archive.tar" +:+ "." +:+ "GZ") "") = str_lower "GZ" /\
  sc_bedrock_app.file_ext (mkUpload "GZ" "") = str_lower "GZ".
Proof. apply (file_ext_after_last_dot "archive.tar" "GZ" ""). reflexivity. Defined.

(** *** The list of available documents *)

Lemma ascii_compare_refl a : Ascii.compare a a = Eq.
Proof. unfold Ascii.compare. apply N.compare_refl. Qed.

Lemma ascii_compare_lt_trans a b c :
  Ascii.compare a b = Lt -> Ascii.compare b c = Lt -> Ascii.compare a c = Lt.
Proof.
  unfold Ascii.compare. rewrite !N.compare_lt_iff. lia.
Qed.

#[export] Instance str_le_trans : Transitive str_le.
Proof.
  unfold str_le, String.leb. intros a.
  induction a as [|x a IH]; intros [|y b] [|z c]; cbn; try easy.
  destruct (Ascii.compare x y) eqn:E1; try easy;
    destruct (Ascii.compare y z) eqn:E2; try easy.
  - apply Ascii.compare_eq_iff in E1 as ->. rewrite E2. apply IH.
  - apply Ascii.compare_eq_iff in E1 as ->. now rewrite E2.
  - apply Ascii.compare_eq_iff in E2 as <-. now rewrite E1.
  - now rewrite (ascii_compare_lt_trans _ _ _ E1 E2).
Qed.

#[export] Instance str_le_total : Total str_le.
Proof. intros a b. apply String.leb_total. Qed.

#[export] Instance str_le_antisym : AntiSymm (=) str_le.
Proof. intros a b. apply String.leb_antisym. Qed.

Lemma sorted_spec names :
  StronglySorted str_le (sorted names) /\ sorted names ≡ₚ names.
Proof.
  split.
  - apply Sorted_StronglySorted; [apply _|]. apply (Sorted_merge_sort str_le).
  - apply merge_sort_Permutation.
Qed.

Lemma str_endswith_spec s suffix :
  str_endswith s suffix = true -> exists stem, s = stem +:+ suffix.
Proof.
  induction s as [|c s IH]; cbn [str_endswith].
  - rewrite orb_false_r. intros ->%String.eqb_eq. now exists "".
  - intros [->%String.eqb_eq | H]%orb_true_iff; [now exists ""|].
    destruct (IH H) as [stem ->]. now exists (String c stem).
Qed.

Lemma supported_spec f :
  sc_bedrock_app.supported f = true ->
  exists stem suffix, suffix ∈ sc_bedrock_app.SUPPORTED /\ f = stem +:+ suffix.
Proof.
  unfold sc_bedrock_app.supported. rewrite existsb_exists.
  intros (suffix & Hin & H). destruct (str_endswith_spec _ _ H) as [stem ->].
  exists stem, suffix. split; [|reflexivity]. now apply list_elem_of_In.
Qed.

(** X14: for a directory with at least one supported file, the section
    shows a heading, then at most ten names, then the number of names left
    out if there are more than ten.  The names shown are files of the
    directory that end in one of the four supported suffixes (in that very
    spelling), they are in ascending order, and they are the smallest ones:
    no supported file left out comes before a name shown. *)
Theorem available_documents_lists_first_ten (names : list string) :
  let files := filter (fun f => sc_bedrock_app.supported f = true) names in
  let shown := take 10 (sorted files) in
  files <> [] ->
  sc_bedrock_app.available_documents true (Returns names)
    = sb_text "Available documents:" ::
      map (fun file => sb_text ("• " +:+ file)) shown ++
      (if (10 <? length files)%nat
       then [sb_text ("... and " +:+ pretty (length files - length shown)%nat
                      +:+ " more files")]
       else []) /\
  length shown = Nat.min 10 (length files) /\
  StronglySorted str_le shown /\
  (forall f, f ∈ shown ->
     f ∈ names /\
     exists stem suffix, suffix ∈ sc_bedrock_app.SUPPORTED /\ f = stem +:+ suffix) /\
  (forall f g, f ∈ files -> f ∉ shown -> g ∈ shown -> str_le g f).
Proof.
  cbv zeta. intros Hne.
  destruct (sorted_spec (filter (fun f => sc_bedrock_app.supported f = true) names))
    as [Hs Hp].
  set (files := filter (fun f => sc_bedrock_app.supported f = true) names) in *.
  assert (Hlen : length (take 10 (sorted files)) = Nat.min 10 (length files)).
  { rewrite length_take. now rewrite Hp. }
  split; [|split; [exact Hlen|split; [|split]]].
  - unfold sc_bedrock_app.available_documents. fold files.
    destruct files as [|f0 fs] eqn:E; [congruence|]. rewrite <- E in *.
    destruct (10 <? length files)%nat eqn:El; [|reflexivity].
    apply Nat.ltb_lt in El. rewrite Hlen.
    replace (Nat.min 10 (length files)) with 10%nat by lia. reflexivity.
  - rewrite <- (take_drop 10 (sorted files)) in Hs.
    now apply StronglySorted_app_1_l in Hs.
  - intros f Hf. apply elem_of_take in Hf as (i & Hf & _).
    apply list_elem_of_lookup_2 in Hf. rewrite Hp in Hf.
    apply list_elem_of_filter in Hf as [Hsup Hin].
    split; [exact Hin | now apply supported_spec].
  - intros f g Hf Hnf Hg.
    rewrite <- (take_drop 10 (sorted files)) in Hs.
    apply (StronglySorted_app_1_elem_of _ _ _ _ _ Hs Hg).
    rewrite <- Hp, <- (take_drop 10 (sorted files)) in Hf.
    apply elem_of_app in Hf as [Hf|Hf]; [contradiction|exact Hf].
Qed.

Lemma available_documents_lists_first_ten_witness :
  let names := ["b.txt"; "a.md"; "z.TXT"; "c.pdf"; "notes"; "d.docx"] in
  let files := filter (fun f => sc_bedrock_app.supported f = true) names in
  let shown := take 10 (sorted files) in
  sc_bedrock_app.available_documents true (Returns names)
    = sb_text "Available documents:" ::
      map (fun file => sb_text ("• " +:+ file)) shown ++
      (if (10 <? length files)%nat
       then [sb_text ("... and " +:+ pretty (length files - length shown)%nat
                      +:+ " more files")]
       else []) /\
  length shown = Nat.min 10 (length files) /\
  StronglySorted str_le shown /\
  (forall f, f ∈ shown ->
     f ∈ names /\
     exists stem suffix, suffix ∈ sc_bedrock_app.SUPPORTED /\ f = stem +:+ suffix) /\
  (forall f g, f ∈ files -> f ∉ shown -> g ∈ shown -> str_le g f).
Proof.
  cbv zeta.
  apply (available_documents_lists_first_ten
           ["b.txt"; "a.md"; "z.TXT"; "c.pdf"; "notes"; "d.docx"]).
  vm_compute. discriminate.
Defined.

(** A file with an upper-case suffix is not listed, more than ten files
    are cut, and the other outcomes are one message each. *)
Example available_documents_examples :
  sc_bedrock_app.available_documents true
      (Returns ["b.txt"; "a.md"; "z.TXT"; "c.pdf"; "notes"; "d.docx"])
    = [sb_text "Available documents:"; sb_text "• a.md"; sb_text "• b.txt";
       sb_text "• c.pdf"; sb_text "• d.docx"] /\
  sc_bedrock_app.available_documents true (Returns ["z.TXT"; "notes"])
    = [sb_warning "No supported document files found in directory"] /\
  sc_bedrock_app.available_documents true (Raises "Permission denied")
    = [sb_error "Error reading directory: Permission denied"] /\
  sc_bedrock_app.available_documents false (Returns ["a.txt"])
    = [sb_error "Directory does not exist"].
Proof. repeat split. Qed.

(** *** The upload directory *)

Lemma save_new_files_lookup ups files name :
  sc_bedrock_app.save_new_files ups files !! name
  = match last_upload name ups with
    | Some bytes => Some bytes
    | None => files !! name
    end.
Proof.
  unfold sc_bedrock_app.save_new_files, last_upload.
  revert files. induction ups as [|f ups IH]; intros files; [reflexivity|].
  cbn [fold_left]. rewrite IH, filter_cons.
  destruct (decide (upload_name f = name)) as [E|E].
  - rewrite last_cons.
    destruct (last (filter (fun g => upload_name g = name) ups)); cbn; [reflexivity|].
    rewrite E. apply lookup_insert_eq.
  - destruct (last (filter (fun g => upload_name g = name) ups)); cbn; [reflexivity|].
    now apply lookup_insert_ne.
Qed.

Lemma remove_files_lookup names (files : gmap string string) k :
  sc_bedrock_app.remove_files no_faults names files !! k
  = if decide (k ∈ names) then None else files !! k.
Proof.
  revert files. induction names as [|n names IH]; intros files; cbn.
  - rewrite decide_False; [reflexivity | apply not_elem_of_nil].
  - rewrite IH. destruct (decide (k ∈ names)) as [Hin|Hin].
    + rewrite decide_True; [reflexivity | now right].
    + destruct (decide (n = k)) as [->|Hne].
      * rewrite decide_True; [apply lookup_delete_eq | left].
      * rewrite decide_False; [now apply lookup_delete_ne|].
        intros [->|H]%elem_of_cons; [now apply Hne | now apply Hin].
Qed.

Lemma clear_previous_files_no_faults (files : gmap string string) :
  sc_bedrock_app.clear_previous_files no_faults files = ∅.
Proof.
  unfold sc_bedrock_app.clear_previous_files. cbn [listdir_raises no_faults].
  apply map_eq. intros k. rewrite remove_files_lookup, lookup_empty.
  destruct (decide (k ∈ map fst (map_to_list files))) as [Hin|Hin]; [reflexivity|].
  destruct (files !! k) as [v|] eqn:E; [|reflexivity].
  exfalso. apply Hin. apply elem_of_map_to_list in E.
  change (map fst ?l) with (fst <$> l). apply list_elem_of_fmap. now exists (k, v).
Qed.

(** X15: in a run with uploads, the data path is the session's temporary
    directory (a new one if the session has none yet), the session keeps
    it, and after the run every uploaded name is a file of that directory
    holding the bytes of the last upload of that name, whether or not
    clearing the old files failed. *)
Theorem uploaded_files_are_saved
    (w : World) (path_method custom_path : string) (uploaded_files : list UploadedFile)
    (faults : fs_faults) (fresh_dir : string) (us : upload_state) :
  upload_method path_method ->
  uploaded_files <> [] ->
  let r := sc_bedrock_app.select_data_path w path_method custom_path uploaded_files
             faults fresh_dir us in
  fst r = default fresh_dir (session_temp_dir us) /\
  session_temp_dir (snd r) = Some (fst r) /\
  forall f, f ∈ uploaded_files ->
    temp_files (snd r) !! upload_name f = last_upload (upload_name f) uploaded_files /\
    is_Some (temp_files (snd r) !! upload_name f).
Proof.
  intros [H1%String.eqb_neq H2%String.eqb_neq] Hne. cbv zeta.
  unfold sc_bedrock_app.select_data_path. rewrite H1, H2.
  destruct uploaded_files as [|f0 fs] eqn:E; [congruence|]. rewrite <- E in *.
  assert (L : forall f, f ∈ uploaded_files ->
                is_Some (last_upload (upload_name f) uploaded_files)).
  { intros f Hf. unfold last_upload.
    destruct (last (filter (fun g => upload_name g = upload_name f) uploaded_files))
      eqn:El; [now eexists|].
    apply last_None in El.
    assert (Hin : f ∈ filter (fun g => upload_name g = upload_name f) uploaded_files)
      by now apply list_elem_of_filter.
    rewrite El in Hin. now apply not_elem_of_nil in Hin. }
  destruct (session_temp_dir us) as [d|]; cbn [default fst snd session_temp_dir];
    (split; [reflexivity|split; [reflexivity|]]);
    intros f Hf; cbn [temp_files]; rewrite save_new_files_lookup;
    destruct (L f Hf) as [b ->]; split; [reflexivity|now eexists|reflexivity|now eexists].
Qed.

Lemma uploaded_files_are_saved_witness :
  let r := sc_bedrock_app.select_data_path world_no_documents "Upload files" ""
             uploads0 (mkFaults true (fun _ => true)) "/tmp/tmpxyz" upload_state0 in
  fst r = default "/tmp/tmpxyz" (session_temp_dir upload_state0) /\
  session_temp_dir (snd r) = Some (fst r) /\
  forall f, f ∈ uploads0 ->
    temp_files (snd r) !! upload_name f = last_upload (upload_name f) uploads0 /\
    is_Some (temp_files (snd r) !! upload_name f).
Proof.
  cbv zeta.
  apply (uploaded_files_are_saved world_no_documents "Upload files" "" uploads0
           (mkFaults true (fun _ => true)) "/tmp/tmpxyz" upload_state0).
  - split; discriminate.
  - discriminate.
Defined.

(** X16: when clearing the old files does not fail, the directory holds
    after the run exactly the uploaded files: a name that was not uploaded
    in this run is gone, whatever an earlier run had left there. *)
Theorem upload_replaces_previous_files
    (w : World) (path_method custom_path : string) (uploaded_files : list UploadedFile)
    (fresh_dir : string) (us : upload_state) (name : string) :
  upload_method path_method ->
  uploaded_files <> [] ->
  temp_files (snd (sc_bedrock_app.select_data_path w path_method custom_path
                     uploaded_files no_faults fresh_dir us)) !! name
    = last_upload name uploaded_files.
Proof.
  intros [H1%String.eqb_neq H2%String.eqb_neq] Hne.
  unfold sc_bedrock_app.select_data_path. rewrite H1, H2.
  destruct uploaded_files as [|f0 fs] eqn:E; [congruence|]. rewrite <- E in *.
  destruct (session_temp_dir us) as [d|]; cbn [snd temp_files];
    rewrite save_new_files_lookup, clear_previous_files_no_faults, lookup_empty;
    now destruct (last_upload name uploaded_files).
Qed.

Lemma upload_replaces_previous_files_witness :
  temp_files (snd (sc_bedrock_app.select_data_path world_no_documents "Upload files" ""
                     uploads0 no_faults "/tmp/tmpxyz" upload_state0)) !! "old.txt"
    = last_upload "old.txt" uploads0.
Proof.
  apply (upload_replaces_previous_files world_no_documents "Upload files" "" uploads0
           "/tmp/tmpxyz" upload_state0 "old.txt").
  - split; discriminate.
  - discriminate.
Defined.

(** The same upload when removing the old file fails: the old file stays
    in the directory, next to the new ones. *)
Example failed_removal_keeps_old_file :
  let r := sc_bedrock_app.select_data_path world_no_documents "Upload files" ""
             uploads0 (mkFaults false (fun _ => true)) "/tmp/tmpxyz" upload_state0 in
  fst r = "/tmp/tmpabc" /\
  temp_files (snd r) !! "old.txt" = Some "stale" /\
  temp_files (snd r) !! "notes.TXT" = Some "second" /\
  temp_files (snd r) !! "paper.pdf" = Some "%PDF".
Proof. cbv zeta. repeat split; vm_compute; reflexivity. Qed.

(** X17: a session that has a temporary directory keeps that directory in
    every run, whatever is selected; a run either serves the uploads from
    it or leaves it and its files as they are (nothing removes them when
    the user goes back to another data source). *)
Theorem temp_dir_is_kept
    (w : World) (path_method custom_path : string) (uploaded_files : list UploadedFile)
    (faults : fs_faults) (fresh_dir d : string) (us : upload_state) :
  session_temp_dir us = Some d ->
  let r := sc_bedrock_app.select_data_path w path_method custom_path uploaded_files
             faults fresh_dir us in
  session_temp_dir (snd r) = Some d /\
  (fst r = d \/ snd r = us).
Proof.
  intros Hd. cbv zeta. unfold sc_bedrock_app.select_data_path.
  destruct (String.eqb path_method "Use default data folder"); [cbn; auto|].
  destruct (String.eqb path_method "Enter custom path"); [cbn; auto|].
  destruct uploaded_files as [|f0 fs]; [cbn; auto|].
  rewrite Hd. cbn. auto.
Qed.

Lemma temp_dir_is_kept_witness :
  let r := sc_bedrock_app.select_data_path world_no_documents "Enter custom path"
             "/srv/docs" uploads0 no_faults "/tmp/tmpxyz" upload_state0 in
  session_temp_dir (snd r) = Some "/tmp/tmpabc" /\
  (fst r = "/tmp/tmpabc" \/ snd r = upload_state0).
Proof.
  cbv zeta.
  apply (temp_dir_is_kept world_no_documents "Enter custom path" "/srv/docs" uploads0
           no_faults "/tmp/tmpxyz" "/tmp/tmpabc" upload_state0).
  reflexivity.
Defined.
